(** * direct-bridge: the order-lifecycle correlation engine

  A shallow embedding of [internal/messaging/handler.go] (the
  [DirectActionHandler] with its two tracker maps, the shared header-id
  counter and the state aggregation) and of the pieces of
  [internal/types] it uses, followed by the properties of the design
  document that are decided by that code.

  Conventions of the embedding:
  - a Go [string] is a byte sequence: Rocq's [string] (a list of 8-bit
    [ascii]);
  - [int64] and [int] are [Z] with the two's-complement wrap-around of
    64 bits written out ([wrap64]);
  - [map[string]string] is [gmap string string];
  - a value decoded by [encoding/json] into [interface{}] is a [json];
  - every handler method is a computation in the monad [M]: it threads
    the process state (the two maps, the package-level counter, the log
    of calls to [MQTTClient.Publish]) and may end in a run-time panic;
  - what a callback reads from outside (the clock, the outcome of a
    publish, the iteration order of a [range] over a map) is an [Env]. *)

From Stdlib Require Import ZArith NArith Ascii HexadecimalString HexadecimalN.
From Stdlib Require QArith.QArith_base.
From stdpp Require Import gmap strings list fin_maps.

#[local] Open Scope Z_scope.
#[local] Set Warnings "-register-all".

(** ** The Go standard library, as far as the handler calls it *)

Module strings.

(** [s[n:]] for [n <= len(s)]. *)
Fixpoint sliceFrom (n : nat) (s : string) : string :=
  match n, s with
  | O, _ => s
  | S n', String _ s' => sliceFrom n' s'
  | S _, EmptyString => EmptyString
  end.

(** [strings.HasSuffix]:
    [len(s) >= len(suffix) && s[len(s)-len(suffix):] == suffix]. *)
Definition HasSuffix (s suffix : string) : bool :=
  (String.length suffix <=? String.length s)%nat
  && String.eqb (sliceFrom (String.length s - String.length suffix) s) suffix.

(** [strings.Index]: the byte offset of the first occurrence of
    [substr] in [s], or [-1]. *)
Fixpoint Index (s substr : string) : Z :=
  if String.prefix substr s then 0
  else match s with
       | EmptyString => -1
       | String _ s' =>
           let i := Index s' substr in
           if i <? 0 then -1 else i + 1
       end.

(** [strings.Contains]: [Index(s, substr) >= 0]. *)
Definition Contains (s substr : string) : bool := 0 <=? Index s substr.

(** [strings.Split(s, sep)] for a separator of one byte, which is the
    only way the handler calls it ([sep = ":"]): the fields between the
    separators, in order; one more field than there are separators. *)
Fixpoint Split (s : string) (sep : ascii) : list string :=
  match s with
  | EmptyString => [EmptyString]
  | String c s' =>
      if Ascii.eqb c sep then EmptyString :: Split s' sep
      else match Split s' sep with
           | field :: fields => String c field :: fields
           | [] => [String c EmptyString]
           end
  end.

(** The width in bytes of the white-space rune encoded at the head of
    [s], [0] when [s] does not start with one. White space is what
    [unicode.IsSpace] accepts: the six ASCII characters and, in UTF-8,
    U+0085, U+00A0, U+1680, U+2000..U+200A, U+2028, U+2029, U+202F,
    U+205F and U+3000. *)
Definition spaceWidth (s : string) : nat :=
  match s with
  | EmptyString => 0
  | String c rest =>
      if Ascii.is_space c then 1
      else
        match N_of_ascii c, N_of_ascii <$> String.list_ascii_of_string rest with
        | 0xC2%N, b1 :: _ =>
            if bool_decide (b1 = 0x85 ∨ b1 = 0xA0)%N then 2 else 0
        | 0xE1%N, 0x9A%N :: 0x80%N :: _ => 3
        | 0xE2%N, 0x80%N :: b2 :: _ =>
            if bool_decide ((0x80 ≤ b2 ≤ 0x8A) ∨ b2 = 0xA8 ∨ b2 = 0xA9 ∨ b2 = 0xAF)%N
            then 3 else 0
        | 0xE2%N, 0x81%N :: 0x9F%N :: _ => 3
        | 0xE3%N, 0x80%N :: 0x80%N :: _ => 3
        | _, _ => 0
        end%nat
  end%nat.

(** The same for the rune encoded at the end of a string, read on the
    reversed bytes. *)
Definition spaceWidthRev (r : string) : nat :=
  match r with
  | EmptyString => 0
  | String c rest =>
      if Ascii.is_space c then 1
      else
        match N_of_ascii c, N_of_ascii <$> String.list_ascii_of_string rest with
        | b1, 0xC2%N :: _ =>
            if bool_decide (b1 = 0x85 ∨ b1 = 0xA0)%N then 2 else 0
        | 0x80%N, 0x9A%N :: 0xE1%N :: _ => 3
        | 0x9F%N, 0x81%N :: 0xE2%N :: _ => 3
        | b2, 0x80%N :: b0 :: _ =>
            if bool_decide
                 ((b0 = 0xE2 ∧ ((0x80 ≤ b2 ≤ 0x8A) ∨ b2 = 0xA8 ∨ b2 = 0xA9 ∨ b2 = 0xAF))
                  ∨ (b0 = 0xE3 ∧ b2 = 0x80))%N
            then 3 else 0
        | _, _ => 0
        end%nat
  end%nat.

Fixpoint trimWith (width : string → nat) (fuel : nat) (s : string) : string :=
  match fuel with
  | O => s
  | S fuel' =>
      match width s with
      | O => s
      | w => trimWith width fuel' (sliceFrom w s)
      end
  end.

(** [strings.TrimSpace]: all leading and trailing white space removed. *)
Definition TrimSpace (s : string) : string :=
  let s1 := trimWith spaceWidth (String.length s) s in
  String.rev (trimWith spaceWidthRev (String.length s1) (String.rev s1)).

End strings.

Module fmt.

(** [n] zero characters. *)
Fixpoint zeros (n : nat) : string :=
  match n with
  | O => EmptyString
  | S n' => String "0" (zeros n')
  end.

(** The lower-case hexadecimal digits of a natural number. *)
Definition hexDigits (n : N) : string :=
  NilZero.string_of_uint (N.to_hex_uint n).

(** [digits] padded on the left with zeros to [width] characters. *)
Definition zeroPad (width : nat) (digits : string) : string :=
  zeros (width - String.length digits) +:+ digits.

(** [fmt.Sprintf("%016x", v)] for an [int64] [v]: the sign, if any,
    counts in the width and precedes the padding. *)
Definition Sprintf_016x (v : Z) : string :=
  if v <? 0 then String "-" (zeroPad 15 (hexDigits (Z.to_N (- v))))
  else zeroPad 16 (hexDigits (Z.to_N v)).

End fmt.

(** ** Machine integers *)

(** The value an [int64] (and, on the 64-bit targets, an [int]) holds
    after an arithmetic result [z]: two's-complement wrap-around. *)
Definition wrap64 (z : Z) : Z := (z + 2 ^ 63) mod 2 ^ 64 - 2 ^ 63.

Definition MaxInt64 : Z := 2 ^ 63 - 1.

(** ** Dynamic values *)

(** What [encoding/json] decodes into an [interface{}]: [nil], [bool],
    [float64] (kept as its literal, the handler never inspects one),
    [string], [[]interface{}] and [map[string]interface{}]. The same type
    stands for the [interface{}] values the handler stores in an action
    parameter (always strings). *)
Inductive json : Type :=
| JNull
| JBool (b : bool)
| JNumber (literal : string)
| JString (s : string)
| JArray (elems : list json)
| JObject (fields : gmap string json).

(** ** [internal/config] *)

Record Config : Type := {
  PlcResponseTopic : string;
  RobotSerialNumber : string;
  RobotManufacturer : string
}.

(** ** [internal/types] *)

Module types.

Definition PLCStatusWaiting : string := "W".
Definition PLCStatusInitializing : string := "I".
Definition PLCStatusRunning : string := "R".
Definition PLCStatusSuccess : string := "S".
Definition PLCStatusFailed : string := "F".

Definition BlockingTypeNone : string := "NONE".
Definition BlockingTypeHard : string := "HARD".

Record PLCResponse : Type := {
  Command : string;
  Status : string
}.

(** [extractBaseCommand]: the field before the first [':'];
    [len(parts) > 0] always holds, the fallback returns [command]. *)
Definition extractBaseCommand (command : string) : string :=
  let parts := strings.Split command ":" in
  match parts with
  | part0 :: _ => part0
  | [] => command
  end.

Definition NewPLCResponse (command status message : string) : PLCResponse :=
  {| Command := extractBaseCommand command; Status := status |}.

(** [fmt.Sprintf("%s:%s", r.Command, r.Status)]. *)
Definition ToResponseString (r : PLCResponse) : string :=
  Command r +:+ ":" +:+ Status r.

Record ActionParameter : Type := {
  Key : string;
  Value : json
}.

Record Action : Type := {
  ActionType : string;
  ActionID : string;
  ActionDescription : option string;
  BlockingType : string;
  ActionParameters : list ActionParameter
}.

(** The [float64] fields only ever hold the constant [0.0]; they are
    kept as rationals. *)
Definition float64 : Type := QArith_base.Q.

Record NodePosition : Type := {
  X : float64;
  Y : float64;
  Theta : option float64;
  AllowedDeviationXY : option float64;
  AllowedDeviationTheta : option float64;
  MapID : string;
  MapDescription : option string
}.

Record Node : Type := {
  NodeID : string;
  SequenceID : Z;
  NodeDescription : option string;
  Released : bool;
  NodePos : option NodePosition;
  Actions : list Action
}.

(** [Edges] is always the empty slice here; an edge is never built. *)
Record OrderMessage : Type := {
  HeaderID : Z;
  Timestamp : Z;
  Version : string;
  Manufacturer : string;
  SerialNumber : string;
  OrderID : string;
  OrderUpdateID : Z;
  ZoneSetID : option string;
  Nodes : list Node;
  Edges : list unit
}.

Definition NewOrderMessage (now : Z) (headerID : Z)
    (manufacturer serialNumber orderID : string) (orderUpdateID : Z) : OrderMessage :=
  {| HeaderID := headerID;
     Timestamp := now;
     Version := "2.0.0";
     Manufacturer := manufacturer;
     SerialNumber := serialNumber;
     OrderID := orderID;
     OrderUpdateID := orderUpdateID;
     ZoneSetID := None;
     Nodes := [];
     Edges := [] |}.

Definition OrderMessage_AddNode (o : OrderMessage) (node : Node) : OrderMessage :=
  {| HeaderID := HeaderID o;
     Timestamp := Timestamp o;
     Version := Version o;
     Manufacturer := Manufacturer o;
     SerialNumber := SerialNumber o;
     OrderID := OrderID o;
     OrderUpdateID := OrderUpdateID o;
     ZoneSetID := ZoneSetID o;
     Nodes := Nodes o ++ [node];
     Edges := Edges o |}.

Definition NewNode (nodeID : string) (sequenceID : Z) (released : bool) : Node :=
  {| NodeID := nodeID;
     SequenceID := sequenceID;
     NodeDescription := None;
     Released := released;
     NodePos := None;
     Actions := [] |}.

Definition Node_AddAction (n : Node) (action : Action) : Node :=
  {| NodeID := NodeID n;
     SequenceID := SequenceID n;
     NodeDescription := NodeDescription n;
     Released := Released n;
     NodePos := NodePos n;
     Actions := Actions n ++ [action] |}.

Definition NewAction (actionType actionID blockingType : string) : Action :=
  {| ActionType := actionType;
     ActionID := actionID;
     ActionDescription := None;
     BlockingType := blockingType;
     ActionParameters := [] |}.

Record InstantActionsMessage : Type := {
  IAHeaderID : Z;
  IATimestamp : Z;
  IAVersion : string;
  IAManufacturer : string;
  IASerialNumber : string;
  IAActions : list Action
}.

Definition NewInstantActionsMessage (now : Z) (headerID : Z)
    (manufacturer serialNumber : string) : InstantActionsMessage :=
  {| IAHeaderID := headerID;
     IATimestamp := now;
     IAVersion := "2.0.0";
     IAManufacturer := manufacturer;
     IASerialNumber := serialNumber;
     IAActions := [] |}.

(** [InstantAction] has the fields of [Action]; the record is shared. *)
Definition NewInstantAction (actionType actionID blockingType : string) : Action :=
  NewAction actionType actionID blockingType.

Definition InstantActionsMessage_AddAction (i : InstantActionsMessage) (action : Action)
    : InstantActionsMessage :=
  {| IAHeaderID := IAHeaderID i;
     IATimestamp := IATimestamp i;
     IAVersion := IAVersion i;
     IAManufacturer := IAManufacturer i;
     IASerialNumber := IASerialNumber i;
     IAActions := IAActions i ++ [action] |}.

End types.

(** ** The process state and what a callback reads from outside *)

(** The payload handed to [MQTTClient.Publish]: the response text, or the
    document that [json.Marshal] serialises (marshalling these structs
    cannot fail, so the error branch after it is never taken). *)
Inductive Payload : Type :=
| Text (s : string)
| OrderJSON (order : types.OrderMessage)
| InstantActionsJSON (instantActions : types.InstantActionsMessage).

(** One call of [MQTTClient.Publish]: [delivered] tells whether it
    returned [nil] (the client was connected and the token had no
    error). *)
Record Publication : Type := {
  topic : string;
  payload : Payload;
  delivered : bool
}.

(** The handler's two maps, the package-level [headerIDCounter], and the
    calls of [Publish] so far, oldest first. *)
Record Process : Type := {
  activeOrders : gmap string string;
  canceledOrders : gmap string string;
  headerIDCounter : Z;
  published : list Publication
}.

(** What one callback reads from its environment; every one of these is
    read at most once in a callback. *)
Record Env : Type := {
  (** [time.Now()] in [NewOrderMessage] / [NewInstantActionsMessage] *)
  timeNow : Z;
  (** [time.Now().UnixNano()] in [generateOrderID], [generateNodeID],
      [generateActionID] *)
  orderNano : Z;
  nodeNano : Z;
  actionNano : Z;
  (** whether [Publish] returns [nil] on the robot's topic, and on the
      PLC response topic *)
  robotPublish : bool;
  plcPublish : bool;
  (** the order in which [range] visits the entries of a map *)
  rangeOrder : gmap string string → list (string * string)
}.

(** A [range] visits every entry once, in an order of its own. *)
Definition EnvOK (env : Env) : Prop :=
  ∀ m : gmap string string, rangeOrder env m ≡ₚ map_to_list m.

(** ** The monad of handler methods *)

(** [None] is a run-time panic, which ends the process. *)
Definition M (A : Type) : Type := Process → option (A * Process).

#[global] Instance M_ret : MRet M := λ A a p, Some (a, p).

#[global] Instance M_bind : MBind M := λ A B f m p,
  match m p with
  | Some (a, p') => f a p'
  | None => None
  end.

Definition panic {A : Type} : M A := λ _, None.

(** The four writes of the state, as functions on it. *)
Definition withActiveOrders (f : gmap string string → gmap string string) (p : Process)
    : Process :=
  {| activeOrders := f (activeOrders p);
     canceledOrders := canceledOrders p;
     headerIDCounter := headerIDCounter p;
     published := published p |}.

Definition withCanceledOrders (f : gmap string string → gmap string string) (p : Process)
    : Process :=
  {| activeOrders := activeOrders p;
     canceledOrders := f (canceledOrders p);
     headerIDCounter := headerIDCounter p;
     published := published p |}.

Definition withHeaderIDCounter (n : Z) (p : Process) : Process :=
  {| activeOrders := activeOrders p;
     canceledOrders := canceledOrders p;
     headerIDCounter := n;
     published := published p |}.

Definition emit (pub : Publication) (p : Process) : Process :=
  {| activeOrders := activeOrders p;
     canceledOrders := canceledOrders p;
     headerIDCounter := headerIDCounter p;
     published := published p ++ [pub] |}.

Definition getActiveOrders : M (gmap string string) := λ p, Some (activeOrders p, p).

Definition getCanceledOrders : M (gmap string string) := λ p, Some (canceledOrders p, p).

(** [h.activeOrders[orderID] = command] *)
Definition setActiveOrder (orderID command : string) : M unit := λ p,
  Some (tt, withActiveOrders (insert orderID command) p).

(** [delete(h.activeOrders, orderID)] *)
Definition deleteActiveOrder (orderID : string) : M unit := λ p,
  Some (tt, withActiveOrders (delete orderID) p).

(** [h.canceledOrders[orderID] = command] *)
Definition setCanceledOrder (orderID command : string) : M unit := λ p,
  Some (tt, withCanceledOrders (insert orderID command) p).

(** [delete(h.canceledOrders, orderID)] *)
Definition deleteCanceledOrder (orderID : string) : M unit := λ p,
  Some (tt, withCanceledOrders (delete orderID) p).

(** [MQTTClient.Publish(topic, 0, false, payload)]; the result is
    [err == nil]. *)
Definition Publish (ok : bool) (topic : string) (payload : Payload) : M bool := λ p,
  Some (ok, emit {| topic := topic; payload := payload; delivered := ok |} p).

(** [headerIDCounter++; return headerIDCounter] *)
Definition getNextHeaderID : M Z := λ p,
  let next := wrap64 (headerIDCounter p + 1) in
  Some (next, withHeaderIDCounter next p).

(** [xs[i]], which panics out of range. *)
Definition index {A : Type} (xs : list A) (i : nat) : M A :=
  match xs !! i with
  | Some x => mret x
  | None => panic
  end.

(** [s[i]] on a string, which panics out of range. *)
Definition byteAt (s : string) (i : nat) : M ascii :=
  match String.get i s with
  | Some c => mret c
  | None => panic
  end.

(** ** [internal/messaging/handler.go] *)

Section Handler.

(** [h.config]; it is never written after construction. *)
Variable cfg : Config.

(** [NewDirectActionHandler] in a fresh process: two empty maps, the
    counter at its zero value, nothing published yet. *)
Definition NewDirectActionHandler : Process :=
  {| activeOrders := ∅;
     canceledOrders := ∅;
     headerIDCounter := 0;
     published := [] |}.

Definition isDirectActionCommand (commandStr : string) : bool :=
  strings.HasSuffix commandStr ":I" || strings.Contains commandStr ":T".

Definition isCancelCommand (commandStr : string) : bool :=
  strings.HasSuffix commandStr ":C".

Definition sendPLCResponse (env : Env) (command status : string) : M unit :=
  let plcResponse := types.NewPLCResponse command status "" in
  let responseStr := types.ToResponseString plcResponse in
  Publish (plcPublish env) (PlcResponseTopic cfg) (Text responseStr);;
  mret tt.

Definition extractBaseCommand (command : string) : string :=
  let parts := strings.Split command ":" in
  match parts with
  | part0 :: _ => part0
  | [] => command
  end.

Definition parseArmParam (armParam : string) : string :=
  if bool_decide (armParam = "R" ∨ armParam = "") then "right"
  else if bool_decide (armParam = "L") then "left"
  else "right".

Definition generateOrderID (env : Env) : string :=
  fmt.Sprintf_016x (orderNano env).

Definition generateNodeID (env : Env) : string :=
  fmt.Sprintf_016x (wrap64 (nodeNano env + 1)).

Definition generateActionID (env : Env) : string :=
  fmt.Sprintf_016x (wrap64 (actionNano env + 2)).

(** [commandType] is the rune of one byte. *)
Definition buildActionParameters (baseCommand : string) (commandType : ascii)
    (armParam : string) : string * list types.ActionParameter :=
  if Ascii.eqb commandType "I" then
    ("Roboligent Robin - Inference",
     [ {| types.Key := "inference_name"; types.Value := JString baseCommand |} ])
  else if Ascii.eqb commandType "T" then
    ("Roboligent Robin - Follow Trajectory",
     [ {| types.Key := "trajectory_name"; types.Value := JString baseCommand |};
       {| types.Key := "arm"; types.Value := JString (parseArmParam armParam) |} ])
  else ("", []).

Definition createDefaultNodePosition : types.NodePosition :=
  let zero := QArith_base.Qmake 0 1 in
  {| types.X := zero;
     types.Y := zero;
     types.Theta := Some zero;
     types.AllowedDeviationXY := Some zero;
     types.AllowedDeviationTheta := Some zero;
     types.MapID := "";
     types.MapDescription := Some "" |}.

Definition buildOrder (env : Env) (orderID nodeID actionID baseCommand actionType : string)
    (actionParameters : list types.ActionParameter) : M types.OrderMessage :=
  headerID ← getNextHeaderID;
  let order :=
    types.NewOrderMessage (timeNow env) headerID
      (RobotManufacturer cfg) (RobotSerialNumber cfg) orderID 0 in
  let node := types.NewNode nodeID 1 true in
  let nodeDescription := "Direct action for command " +:+ baseCommand in
  let node :=
    {| types.NodeID := types.NodeID node;
       types.SequenceID := types.SequenceID node;
       types.NodeDescription := Some nodeDescription;
       types.Released := types.Released node;
       types.NodePos := Some createDefaultNodePosition;
       types.Actions := types.Actions node |} in
  let action := types.NewAction actionType actionID types.BlockingTypeNone in
  let actionDescription := "Execute " +:+ actionType +:+ " for " +:+ baseCommand in
  let action :=
    {| types.ActionType := types.ActionType action;
       types.ActionID := types.ActionID action;
       types.ActionDescription := Some actionDescription;
       types.BlockingType := types.BlockingType action;
       types.ActionParameters := actionParameters |} in
  let node := types.Node_AddAction node action in
  mret (types.OrderMessage_AddNode order node).

(** The result is the order id, or [None] for a non-nil error. *)
Definition publishOrder (env : Env) (order : types.OrderMessage)
    (orderID actionType baseCommand : string) : M (option string) :=
  let topic :=
    "meili/v2/" +:+ RobotManufacturer cfg +:+ "/" +:+ RobotSerialNumber cfg +:+ "/order" in
  ok ← Publish (robotPublish env) topic (OrderJSON order);
  if (ok : bool) then mret (Some orderID) else mret None.

Definition sendDirectActionOrder (env : Env) (baseCommand : string)
    (commandType : ascii) (armParam : string) : M (option string) :=
  let '(actionType, actionParameters) :=
    buildActionParameters baseCommand commandType armParam in
  if bool_decide (actionType = "") then mret None
  else
    let orderID := generateOrderID env in
    let nodeID := generateNodeID env in
    let actionID := generateActionID env in
    order ← buildOrder env orderID nodeID actionID baseCommand actionType actionParameters;
    publishOrder env order orderID actionType baseCommand.

(** The result is [err == nil]. *)
Definition sendCancelOrder (env : Env) (orderID : string) : M bool :=
  headerID ← getNextHeaderID;
  let instantActions :=
    types.NewInstantActionsMessage (timeNow env) headerID
      (RobotManufacturer cfg) (RobotSerialNumber cfg) in
  let actionID := generateActionID env in
  let cancelAction := types.NewInstantAction "cancelOrder" actionID types.BlockingTypeHard in
  let instantActions := types.InstantActionsMessage_AddAction instantActions cancelAction in
  let topic :=
    "meili/v2/" +:+ RobotManufacturer cfg +:+ "/" +:+ RobotSerialNumber cfg
      +:+ "/instantActions" in
  Publish (robotPublish env) topic (InstantActionsJSON instantActions).

Definition handleDirectAction (env : Env) (commandStr : string) : M unit :=
  let parts := strings.Split commandStr ":" in
  if bool_decide (length parts < 2)%nat then
    sendPLCResponse env commandStr types.PLCStatusFailed
  else
    baseCommand ← index parts 0;
    field1 ← index parts 1;
    cmdType ← byteAt field1 0;
    armParam ← (if bool_decide (3 ≤ length parts)%nat then index parts 2 else mret "");
    sent ← sendDirectActionOrder env baseCommand cmdType armParam;
    match sent with
    | None => sendPLCResponse env commandStr types.PLCStatusFailed
    | Some orderID => setActiveOrder orderID commandStr
    end.

(** The loop of [handleCancelCommand] over the entries of
    [h.activeOrders] in the order the [range] visits them; it leaves at
    the first entry whose base command is [baseCommand]. *)
Fixpoint findTargetOrderID (baseCommand : string) (entries : list (string * string))
    (targetOrderID : string) : string :=
  match entries with
  | [] => targetOrderID
  | (orderID, originalCommand) :: rest =>
      if bool_decide (extractBaseCommand originalCommand = baseCommand) then orderID
      else findTargetOrderID baseCommand rest targetOrderID
  end.

Definition handleCancelCommand (env : Env) (commandStr : string) : M unit :=
  let baseCommand := extractBaseCommand commandStr in
  active ← getActiveOrders;
  let targetOrderID := findTargetOrderID baseCommand (rangeOrder env active) "" in
  if bool_decide (targetOrderID = "") then
    sendPLCResponse env commandStr types.PLCStatusFailed
  else
    ok ← sendCancelOrder env targetOrderID;
    if negb ok then sendPLCResponse env commandStr types.PLCStatusFailed
    else
      deleteActiveOrder targetOrderID;;
      setCanceledOrder targetOrderID commandStr.

(** [payload] is [string(msg.Payload())]. *)
Definition HandlePLCCommand (env : Env) (payload : string) : M unit :=
  let commandStr := strings.TrimSpace payload in
  if isCancelCommand commandStr then handleCancelCommand env commandStr
  else if negb (isDirectActionCommand commandStr) then
    sendPLCResponse env commandStr types.PLCStatusFailed
  else handleDirectAction env commandStr.

(** The first loop of [processActionStates]: [statusCounts[actionStatus]++]
    for every element that is an object with a string [actionStatus]. *)
Fixpoint countStatuses (actionStates : list json) (statusCounts : gmap string Z)
    : gmap string Z :=
  match actionStates with
  | [] => statusCounts
  | actionState :: rest =>
      match actionState with
      | JObject actionMap =>
          match actionMap !! "actionStatus" with
          | Some (JString actionStatus) =>
              countStatuses rest
                (<[actionStatus := wrap64 (default 0 (statusCounts !! actionStatus) + 1)]>
                   statusCounts)
          | _ => countStatuses rest statusCounts
          end
      | _ => countStatuses rest statusCounts
      end
  end.

Definition processActionStates (env : Env) (orderID originalCommand : string)
    (actionStates : list json) : M unit :=
  let statusCounts := countStatuses actionStates ∅ in
  let count (status : string) : Z := default 0 (statusCounts !! status) in
  if bool_decide (count "FAILED" > 0) then
    sendPLCResponse env originalCommand types.PLCStatusFailed;;
    deleteActiveOrder orderID
  else if bool_decide (count "FINISHED" > 0 ∧ count "RUNNING" = 0
                       ∧ count "INITIALIZING" = 0 ∧ count "WAITING" = 0) then
    sendPLCResponse env originalCommand types.PLCStatusSuccess;;
    deleteActiveOrder orderID
  else if bool_decide (count "RUNNING" > 0) then
    sendPLCResponse env originalCommand types.PLCStatusRunning
  else if bool_decide (count "INITIALIZING" > 0) then
    sendPLCResponse env originalCommand types.PLCStatusInitializing
  else if bool_decide (count "WAITING" > 0) then
    sendPLCResponse env originalCommand types.PLCStatusWaiting
  else mret tt.

Fixpoint processCanceledOrderStates (env : Env) (orderID originalCancelCommand : string)
    (actionStates : list json) : M unit :=
  match actionStates with
  | [] => mret tt
  | actionState :: rest =>
      match actionState with
      | JObject actionMap =>
          match actionMap !! "actionStatus" with
          | Some (JString actionStatus) =>
              if bool_decide (actionStatus = "FAILED") then
                sendPLCResponse env originalCancelCommand types.PLCStatusFailed;;
                deleteCanceledOrder orderID
              else if bool_decide (actionStatus = "FINISHED") then
                sendPLCResponse env originalCancelCommand types.PLCStatusSuccess;;
                deleteCanceledOrder orderID
              else processCanceledOrderStates env orderID originalCancelCommand rest
          | _ => processCanceledOrderStates env orderID originalCancelCommand rest
          end
      | _ => processCanceledOrderStates env orderID originalCancelCommand rest
      end
  end.

(** [stateMsg] is what [json.Unmarshal(msg.Payload(), &stateMsg)] leaves:
    [None] when it returns an error, else the decoded object. *)
Definition HandleRobotState (env : Env) (stateMsg : option (gmap string json)) : M unit :=
  match stateMsg with
  | None => mret tt
  | Some stateMsg =>
      match stateMsg !! "orderId" with
      | Some (JString orderID) =>
          if bool_decide (orderID ≠ "") then
            let actionStates :=
              match stateMsg !! "actionStates" with
              | Some (JArray elems) => Some elems
              | _ => None
              end in
            canceled ← getCanceledOrders;
            match canceled !! orderID with
            | Some originalCancelCommand =>
                match actionStates with
                | Some actionStates =>
                    processCanceledOrderStates env orderID originalCancelCommand actionStates
                | None => mret tt
                end
            | None =>
                active ← getActiveOrders;
                match active !! orderID with
                | Some originalCommand =>
                    match actionStates with
                    | Some actionStates =>
                        processActionStates env orderID originalCommand actionStates
                    | None => mret tt
                    end
                | None => mret tt
                end
            end
          else mret tt
      | _ => mret tt
      end
  end.

(** ** The process as a transition system *)

(** A message delivered to one of the two subscriptions. *)
Inductive Message : Type :=
| PLCCommand (payload : string)
| RobotState (stateMsg : option (gmap string json)).

Definition deliver (env : Env) (msg : Message) : M unit :=
  match msg with
  | PLCCommand payload => HandlePLCCommand env payload
  | RobotState stateMsg => HandleRobotState env stateMsg
  end.

(** The states a process goes through: it starts from
    [NewDirectActionHandler] and runs one callback to its end for every
    message delivered, one callback at a time (a callback that panics
    ends the process). *)
Inductive reachable : Process → Prop :=
| reachable_init : reachable NewDirectActionHandler
| reachable_deliver (p p' : Process) (env : Env) (msg : Message) :
    reachable p →
    EnvOK env →
    deliver env msg p = Some (tt, p') →
    reachable p'.

(** Running the callbacks for a list of messages, each with its own
    environment. *)
Fixpoint run (msgs : list (Env * Message)) : M unit :=
  match msgs with
  | [] => mret tt
  | (env, msg) :: rest => deliver env msg;; run rest
  end.

End Handler.

(** ** Vocabulary of the properties *)

(** The status an element of [actionStates] reports: the loops of
    [processActionStates] and [processCanceledOrderStates] look at an
    element only when it is an object whose [actionStatus] is a string. *)
Definition actionStatusOf (actionState : json) : option string :=
  match actionState with
  | JObject actionMap =>
      match actionMap !! "actionStatus" with
      | Some (JString actionStatus) => Some actionStatus
      | _ => None
      end
  | _ => None
  end.

(** Some action of the report has status [status]. *)
Definition reports (actionStates : list json) (status : string) : Prop :=
  Exists (λ actionState, actionStatusOf actionState = Some status) actionStates.

(** An action the scan of a canceled order passes over: its status is
    neither FAILED nor FINISHED (or it has none). *)
Definition skipped (actionState : json) : Prop :=
  actionStatusOf actionState ≠ Some "FAILED"
  ∧ actionStatusOf actionState ≠ Some "FINISHED".

(** [statusCounts[actionStatus]++] on the map of counts. *)
Definition tally (statusCounts : gmap string Z) (actionStatus : string) : gmap string Z :=
  <[actionStatus := wrap64 (default 0 (statusCounts !! actionStatus) + 1)]> statusCounts.

(** How many actions of the report have status [status]. *)
Definition occurrences (status : string) (statuses : list string) : nat :=
  length (filter (λ s, s = status) statuses).

(** The call of [Publish] that carries the response [<base>:<status>]
    for [command] to the PLC. *)
Definition plcResponse (cfg : Config) (env : Env) (command status : string) : Publication :=
  {| topic := PlcResponseTopic cfg;
     payload := Text (extractBaseCommand command +:+ ":" +:+ status);
     delivered := plcPublish env |}.

(** The header id of a robot-bound document (an order or an
    instant-actions message); a PLC response has none. *)
Definition robotHeaderID (pub : Publication) : option Z :=
  match payload pub with
  | OrderJSON order => Some (types.HeaderID order)
  | InstantActionsJSON instantActions => Some (types.IAHeaderID instantActions)
  | Text _ => None
  end.

(** The header ids of the robot-bound documents handed to [Publish], in
    the order of the calls. *)
Definition robotHeaderIDs (pubs : list Publication) : list Z := omap robotHeaderID pubs.

(** The order id of an order the transport accepted. *)
Definition deliveredOrderID (pub : Publication) : option string :=
  match payload pub with
  | OrderJSON order => if delivered pub then Some (types.OrderID order) else None
  | _ => None
  end.

Definition deliveredOrderIDs (pubs : list Publication) : list string :=
  omap deliveredOrderID pubs.

(** [s] ends with [suffix]; [s] contains [substr]. *)
Definition EndsWith (s suffix : string) : Prop := ∃ pre, s = pre +:+ suffix.

Definition Includes (s substr : string) : Prop := ∃ pre post, s = pre +:+ substr +:+ post.

(** [base] is the part of [s] before its first [':'], all of [s] when it
    has none. *)
Definition BeforeFirstColon (s base : string) : Prop :=
  ¬ Includes base ":" ∧ (s = base ∨ ∃ rest, s = base +:+ ":" +:+ rest).

(** The shapes the effect of one callback on the process state can take
    (shown of [deliver] in [deliver_Effect]). A robot-bound document
    takes the next value of the counter as its header id. *)
Inductive Effect (p : Process) : Process → Prop :=
| Effect_none : Effect p p
| Effect_response (resp : Publication) :
    robotHeaderID resp = None →
    Effect p (emit resp p)
| Effect_active_done (resp : Publication) (orderID : string) :
    robotHeaderID resp = None →
    Effect p (withActiveOrders (delete orderID) (emit resp p))
| Effect_canceled_done (resp : Publication) (orderID : string) :
    robotHeaderID resp = None →
    Effect p (withCanceledOrders (delete orderID) (emit resp p))
| Effect_robot_lost (doc resp : Publication) :
    robotHeaderID doc = Some (wrap64 (headerIDCounter p + 1)) →
    delivered doc = false →
    robotHeaderID resp = None →
    Effect p (emit resp (emit doc (withHeaderIDCounter (wrap64 (headerIDCounter p + 1)) p)))
| Effect_order_sent (order : types.OrderMessage) (doc : Publication) (command : string) :
    payload doc = OrderJSON order →
    delivered doc = true →
    types.HeaderID order = wrap64 (headerIDCounter p + 1) →
    types.OrderID order ≠ "" →
    Effect p (withActiveOrders (insert (types.OrderID order) command)
                (emit doc (withHeaderIDCounter (wrap64 (headerIDCounter p + 1)) p)))
| Effect_cancel_sent (instantActions : types.InstantActionsMessage) (doc : Publication)
    (targetOrderID command : string) :
    payload doc = InstantActionsJSON instantActions →
    types.IAHeaderID instantActions = wrap64 (headerIDCounter p + 1) →
    is_Some (activeOrders p !! targetOrderID) →
    Effect p (withCanceledOrders (insert targetOrderID command)
                (withActiveOrders (delete targetOrderID)
                   (emit doc (withHeaderIDCounter (wrap64 (headerIDCounter p + 1)) p)))).

(** ** Fixtures for the examples *)

Definition testConfig : Config :=
  {| PlcResponseTopic := "bridge/response";
     RobotSerialNumber := "DEX0002";
     RobotManufacturer := "Roboligent" |}.

(** An environment whose clock reads [now] at every call, whose
    transport accepts every publish and whose [range] visits a map in the
    order of [map_to_list]. *)
Definition testEnv (now : Z) : Env :=
  {| timeNow := now;
     orderNano := now;
     nodeNano := now;
     actionNano := now;
     robotPublish := true;
     plcPublish := true;
     rangeOrder := map_to_list |}.

(** The same environment with a transport that refuses every publish. *)
Definition testEnvDown (now : Z) : Env :=
  {| timeNow := now;
     orderNano := now;
     nodeNano := now;
     actionNano := now;
     robotPublish := false;
     plcPublish := false;
     rangeOrder := map_to_list |}.

(** An action state with the given status, and a decoded state report
    for [orderID] whose actions have the given statuses. *)
Definition actionState (status : string) : json :=
  JObject {["actionStatus" := JString status]}.

Definition stateReport (orderID : string) (statuses : list string)
    : option (gmap string json) :=
  Some (<["orderId" := JString orderID]>
          (<["actionStates" := JArray (actionState <$> statuses)]> ∅)).

(** The state after the callbacks for [msgs], from a fresh process. *)
Definition stateAfter (cfg : Config) (msgs : list (Env * Message)) : Process :=
  match run cfg msgs NewDirectActionHandler with
  | Some (_, p) => p
  | None => NewDirectActionHandler
  end.

(** What a process published, as topic and text (an order shows its
    order id, an instant-actions message its action type). *)
Definition transcript (p : Process) : list (string * string) :=
  (λ pub,
     (topic pub,
      match payload pub with
      | Text s => s
      | OrderJSON order => "order " +:+ types.OrderID order
      | InstantActionsJSON instantActions =>
          "instantActions "
            +:+ String.concat "," (types.ActionType <$> types.IAActions instantActions)
      end)) <$> published p.

(** ** The aggregator of the earlier revision

    The revision of [handler.go] before the map of counts kept one flag
    per status; the rest of the method is the same. *)

Module byFlags.

Record Flags : Type := {
  hasWaiting : bool;
  hasInitializing : bool;
  hasRunning : bool;
  hasFinished : bool;
  hasFailed : bool
}.

(** The loop: the [switch] on [actionStatus] sets the flag of a
    recognised status and does nothing for any other. *)
Fixpoint scanFlags (actionStates : list json) (flags : Flags) : Flags :=
  match actionStates with
  | [] => flags
  | actionState :: rest =>
      match actionState with
      | JObject actionMap =>
          match actionMap !! "actionStatus" with
          | Some (JString actionStatus) =>
              scanFlags rest
                (if bool_decide (actionStatus = "WAITING") then
                   {| hasWaiting := true;
                      hasInitializing := hasInitializing flags;
                      hasRunning := hasRunning flags;
                      hasFinished := hasFinished flags;
                      hasFailed := hasFailed flags |}
                 else if bool_decide (actionStatus = "INITIALIZING") then
                   {| hasWaiting := hasWaiting flags;
                      hasInitializing := true;
                      hasRunning := hasRunning flags;
                      hasFinished := hasFinished flags;
                      hasFailed := hasFailed flags |}
                 else if bool_decide (actionStatus = "RUNNING") then
                   {| hasWaiting := hasWaiting flags;
                      hasInitializing := hasInitializing flags;
                      hasRunning := true;
                      hasFinished := hasFinished flags;
                      hasFailed := hasFailed flags |}
                 else if bool_decide (actionStatus = "FINISHED") then
                   {| hasWaiting := hasWaiting flags;
                      hasInitializing := hasInitializing flags;
                      hasRunning := hasRunning flags;
                      hasFinished := true;
                      hasFailed := hasFailed flags |}
                 else if bool_decide (actionStatus = "FAILED") then
                   {| hasWaiting := hasWaiting flags;
                      hasInitializing := hasInitializing flags;
                      hasRunning := hasRunning flags;
                      hasFinished := hasFinished flags;
                      hasFailed := true |}
                 else flags)
          | _ => scanFlags rest flags
          end
      | _ => scanFlags rest flags
      end
  end.

Definition processActionStates (cfg : Config) (env : Env)
    (orderID originalCommand : string) (actionStates : list json) : M unit :=
  let flags :=
    scanFlags actionStates
      {| hasWaiting := false;
         hasInitializing := false;
         hasRunning := false;
         hasFinished := false;
         hasFailed := false |} in
  if hasFailed flags then
    sendPLCResponse cfg env originalCommand types.PLCStatusFailed;;
    deleteActiveOrder orderID
  else if hasFinished flags && negb (hasRunning flags)
          && negb (hasInitializing flags) && negb (hasWaiting flags) then
    sendPLCResponse cfg env originalCommand types.PLCStatusSuccess;;
    deleteActiveOrder orderID
  else if hasRunning flags then
    sendPLCResponse cfg env originalCommand types.PLCStatusRunning
  else if hasInitializing flags then
    sendPLCResponse cfg env originalCommand types.PLCStatusInitializing
  else if hasWaiting flags then
    sendPLCResponse cfg env originalCommand types.PLCStatusWaiting
  else mret tt.

End byFlags.

(** ** Vocabulary of the further properties *)

(** The two topics of the robot. *)
Definition orderTopic (cfg : Config) : string :=
  "meili/v2/" +:+ RobotManufacturer cfg +:+ "/" +:+ RobotSerialNumber cfg +:+ "/order".

Definition instantActionsTopic (cfg : Config) : string :=
  "meili/v2/" +:+ RobotManufacturer cfg +:+ "/" +:+ RobotSerialNumber cfg
    +:+ "/instantActions".

(** An order of one released node (sequence id 1) with one non-blocking
    action of the given type and parameters, for the configured robot,
    never updated, without edges. *)
Definition SingleActionOrder (cfg : Config) (order : types.OrderMessage)
    (actionType : string) (params : list types.ActionParameter) : Prop :=
  types.Version order = "2.0.0"
  ∧ types.Manufacturer order = RobotManufacturer cfg
  ∧ types.SerialNumber order = RobotSerialNumber cfg
  ∧ types.OrderUpdateID order = 0
  ∧ types.Edges order = []
  ∧ ∃ node action,
      types.Nodes order = [node]
      ∧ types.SequenceID node = 1
      ∧ types.Released node = true
      ∧ types.Actions node = [action]
      ∧ types.ActionType action = actionType
      ∧ types.BlockingType action = "NONE"
      ∧ types.ActionParameters action = params.

(** The action type and parameters of a direct action: an inference
    named after the base command, or a trajectory named after it for the
    left arm (arm code ["L"]) or the right arm (any other arm code). *)
Definition DirectActionParameters (baseCommand : string) (cmdType : ascii)
    (armParam : string) (actionType : string) (params : list types.ActionParameter)
    : Prop :=
  (cmdType = "I"%char
   ∧ actionType = "Roboligent Robin - Inference"
   ∧ params = [ {| types.Key := "inference_name"; types.Value := JString baseCommand |} ])
  ∨ (cmdType = "T"%char
     ∧ actionType = "Roboligent Robin - Follow Trajectory"
     ∧ params
       = [ {| types.Key := "trajectory_name"; types.Value := JString baseCommand |};
           {| types.Key := "arm";
              types.Value := JString (if bool_decide (armParam = "L") then "left"
                                      else "right") |} ]).

(** An instant-actions message of one blocking [cancelOrder] action
    without parameters, for the configured robot. *)
Definition CancelInstantActions (cfg : Config)
    (instantActions : types.InstantActionsMessage) : Prop :=
  types.IAVersion instantActions = "2.0.0"
  ∧ types.IAManufacturer instantActions = RobotManufacturer cfg
  ∧ types.IASerialNumber instantActions = RobotSerialNumber cfg
  ∧ ∃ action,
      types.IAActions instantActions = [action]
      ∧ types.ActionType action = "cancelOrder"
      ∧ types.BlockingType action = "HARD"
      ∧ types.ActionParameters action = [].

(** The five status letters of the PLC protocol. *)
Definition statusLetters : list string :=
  [ types.PLCStatusWaiting; types.PLCStatusInitializing; types.PLCStatusRunning;
    types.PLCStatusSuccess; types.PLCStatusFailed ].

(** A publication as the handler makes them: a text [<base>:<letter>] on
    the PLC response topic, a single-action order on the order topic, or
    a cancel on the instant-actions topic. *)
Definition WellFormedPublication (cfg : Config) (pub : Publication) : Prop :=
  match payload pub with
  | Text s =>
      topic pub = PlcResponseTopic cfg
      ∧ ∃ base status,
          s = base +:+ ":" +:+ status ∧ ¬ Includes base ":" ∧ status ∈ statusLetters
  | OrderJSON order =>
      topic pub = orderTopic cfg
      ∧ ∃ baseCommand cmdType armParam actionType params,
          DirectActionParameters baseCommand cmdType armParam actionType params
          ∧ SingleActionOrder cfg order actionType params
  | InstantActionsJSON instantActions =>
      topic pub = instantActionsTopic cfg
      ∧ CancelInstantActions cfg instantActions
  end.

(** The five statuses the aggregator looks for. *)
Definition recognizedStatuses : list string :=
  ["WAITING"; "INITIALIZING"; "RUNNING"; "FINISHED"; "FAILED"].

(** An action state whose status is one of the five. *)
Definition recognized (actionState : json) : Prop :=
  match actionStatusOf actionState with
  | Some status => status ∈ recognizedStatuses
  | None => False
  end.

#[global] Instance recognized_dec (actionState : json) : Decision (recognized actionState).
Proof. unfold recognized. destruct (actionStatusOf actionState); apply _. Defined.

(** Reading back what [fmt.Sprintf("%016x", v)] prints: an optional
    sign, then hexadecimal digits. *)
Definition parse_016x (s : string) : option Z :=
  match s with
  | String "-" digits =>
      (λ d, - Z.of_N (N.of_hex_uint d)) <$> NilEmpty.uint_of_string digits
  | _ => (λ d, Z.of_N (N.of_hex_uint d)) <$> NilEmpty.uint_of_string s
  end.

(** ** The embedding on concrete inputs *)

Example Split_PICK_I : strings.Split "PICK:I" ":" = ["PICK"; "I"].
Proof. reflexivity. Qed.

Example Split_empty : strings.Split "" ":" = [""].
Proof. reflexivity. Qed.

Example Split_B__T : strings.Split "B::T" ":" = ["B"; ""; "T"].
Proof. reflexivity. Qed.

Example HasSuffix_C : strings.HasSuffix "PICK:C" ":C" = true.
Proof. reflexivity. Qed.

Example HasSuffix_short : strings.HasSuffix "C" ":C" = false.
Proof. reflexivity. Qed.

Example Contains_T : strings.Contains "MOVE:T:L" ":T" = true.
Proof. reflexivity. Qed.

Example Index_T : strings.Index "MOVE:T:L" ":T" = 4.
Proof. reflexivity. Qed.

Example Index_none : strings.Index "MOVE" ":T" = -1.
Proof. reflexivity. Qed.

Example TrimSpace_ascii :
  strings.TrimSpace (String "009" (" PICK:I " +:+ String "010" "")) = "PICK:I".
Proof. reflexivity. Qed.

Example TrimSpace_nbsp :
  strings.TrimSpace (String "194" (String "160" ("A B" +:+ String "226" (String "128" (String "168" "")))))
  = "A B".
Proof. reflexivity. Qed.

Example Sprintf_016x_pos : fmt.Sprintf_016x 255 = "00000000000000ff".
Proof. reflexivity. Qed.

Example Sprintf_016x_neg : fmt.Sprintf_016x (-42) = "-00000000000002a".
Proof. reflexivity. Qed.

Example Sprintf_016x_now :
  fmt.Sprintf_016x 1700000000000000000 = "17979cfe362a0000".
Proof. reflexivity. Qed.

(** Scenario A of the design document. *)
Example scenario_A :
  let p := stateAfter testConfig
             [ (testEnv 5, PLCCommand "PICK:I");
               (testEnv 6, RobotState (stateReport "0000000000000005" ["FINISHED"])) ] in
  transcript p
    = [ ("meili/v2/Roboligent/DEX0002/order", "order 0000000000000005");
        ("bridge/response", "PICK:S") ]
  ∧ activeOrders p = ∅ ∧ canceledOrders p = ∅.
Proof. vm_compute. done. Qed.

(** Scenario C: an invalid type gets its Failed response at once. *)
Example scenario_C :
  let p := stateAfter testConfig [ (testEnv 5, PLCCommand "FOO:X") ] in
  transcript p = [ ("bridge/response", "FOO:F") ] ∧ activeOrders p = ∅.
Proof. vm_compute. done. Qed.

(** Scenario D: a cancel moves the entry, the robot's FAILED answers it. *)
Example scenario_D :
  let p1 := stateAfter testConfig
              [ (testEnv 5, PLCCommand "PICK:I"); (testEnv 6, PLCCommand "PICK:C") ] in
  let p2 := stateAfter testConfig
              [ (testEnv 5, PLCCommand "PICK:I"); (testEnv 6, PLCCommand "PICK:C");
                (testEnv 7, RobotState (stateReport "0000000000000005" ["FAILED"])) ] in
  activeOrders p1 = ∅
  ∧ canceledOrders p1 = {["0000000000000005" := "PICK:C"]}
  ∧ transcript p2
    = [ ("meili/v2/Roboligent/DEX0002/order", "order 0000000000000005");
        ("meili/v2/Roboligent/DEX0002/instantActions", "instantActions cancelOrder");
        ("bridge/response", "PICK:F") ]
  ∧ canceledOrders p2 = ∅.
Proof. vm_compute. done. Qed.

(** Scenario E: a report for an unknown order changes nothing. *)
Example scenario_E :
  HandleRobotState testConfig (testEnv 7) (stateReport "00000000000000aa" ["FINISHED"])
    NewDirectActionHandler
  = Some (tt, NewDirectActionHandler).
Proof. reflexivity. Qed.

(** A counter at its largest value wraps to the smallest. *)
Example wrap64_MaxInt64 : wrap64 (MaxInt64 + 1) = - 2 ^ 63.
Proof. reflexivity. Qed.

(** Scenario B: the parameters of a trajectory for the left arm. *)
Example scenario_B :
  buildActionParameters "MOVE" "T" "L"
  = ("Roboligent Robin - Follow Trajectory",
     [ {| types.Key := "trajectory_name"; types.Value := JString "MOVE" |};
       {| types.Key := "arm"; types.Value := JString "left" |} ]).
Proof. reflexivity. Qed.

(** ** Facts about the string functions *)

Section StringFacts.

#[local] Arguments String.append !_ _ / : simpl nomatch.

Implicit Types (s t pre post suffix substr : string) (c sep : ascii).

Lemma append_nil_r s : s +:+ "" = s.
Proof. induction s as [|c s IH]; simpl; [done | by rewrite IH]. Qed.

Lemma append_assoc s t u : (s +:+ t) +:+ u = s +:+ t +:+ u.
Proof. induction s as [|c s IH]; simpl; [done | by rewrite IH]. Qed.

Lemma length_append s t :
  String.length (s +:+ t) = (String.length s + String.length t)%nat.
Proof. induction s as [|c s IH]; simpl; [done | by rewrite IH]. Qed.

Lemma sliceFrom_append pre s :
  strings.sliceFrom (String.length pre) (pre +:+ s) = s.
Proof. induction pre as [|c pre IH]; simpl; [by destruct s | done]. Qed.

Lemma sliceFrom_split n s :
  (n ≤ String.length s)%nat →
  ∃ pre, s = pre +:+ strings.sliceFrom n s ∧ String.length pre = n.
Proof.
  revert s. induction n as [|n IH]; intros s Hn.
  - exists "". by destruct s.
  - destruct s as [|c s]; simpl in *; [lia |].
    destruct (IH s) as (pre & Hs & Hlen); [lia |].
    exists (String c pre). simpl. split; [by rewrite <- Hs | by rewrite Hlen].
Qed.

Lemma HasSuffix_EndsWith s suffix :
  strings.HasSuffix s suffix = true ↔ EndsWith s suffix.
Proof.
  unfold strings.HasSuffix, EndsWith. split.
  - intros [Hlen Heq]%andb_true_iff.
    apply Nat.leb_le in Hlen. apply String.eqb_eq in Heq.
    destruct (sliceFrom_split (String.length s - String.length suffix) s)
      as (pre & Hs & _); [lia |].
    exists pre. by rewrite <- Heq.
  - intros [pre ->]. rewrite length_append. apply andb_true_iff. split.
    + apply Nat.leb_le. lia.
    + replace (String.length pre + String.length suffix - String.length suffix)%nat
        with (String.length pre) by lia.
      rewrite sliceFrom_append. apply String.eqb_refl.
Qed.

Lemma prefix_append t s :
  String.prefix t s = true ↔ ∃ post, s = t +:+ post.
Proof.
  revert s. induction t as [|c t IH]; intros s; simpl.
  - split; [intros _; by exists s | intros _; by destruct s].
  - destruct s as [|d s]; simpl.
    + split; [done | by intros [post ?]].
    + destruct (Ascii.ascii_dec c d) as [-> | Hne].
      * rewrite IH. split; intros [post Hpost]; exists post; congruence.
      * split; [done | intros [post ?]; congruence].
Qed.

Lemma Index_nil substr :
  strings.Index "" substr = if String.prefix substr "" then 0 else -1.
Proof. done. Qed.

Lemma Index_cons c s substr :
  strings.Index (String c s) substr
  = if String.prefix substr (String c s) then 0
    else if strings.Index s substr <? 0 then -1 else strings.Index s substr + 1.
Proof. done. Qed.

Lemma Index_lower s substr : -1 ≤ strings.Index s substr.
Proof.
  induction s as [|c s IH].
  - rewrite Index_nil. destruct (String.prefix substr ""); lia.
  - rewrite Index_cons. destruct (String.prefix substr (String c s)); [lia |].
    destruct (Z.ltb_spec (strings.Index s substr) 0); lia.
Qed.

Lemma Contains_Includes s substr :
  strings.Contains s substr = true ↔ Includes s substr.
Proof.
  unfold strings.Contains, Includes. rewrite Z.leb_le.
  induction s as [|c s IH].
  - rewrite Index_nil. destruct (String.prefix substr "") eqn:Hp.
    + apply prefix_append in Hp as [post Hp]. split; [intros _ | lia].
      exists "", post. done.
    + split; [lia |]. intros (pre & post & Heq).
      destruct pre; simpl in Heq; [| done].
      assert (String.prefix substr "" = true) as Hp'
        by (apply prefix_append; by exists post).
      congruence.
  - rewrite Index_cons. destruct (String.prefix substr (String c s)) eqn:Hp.
    + apply prefix_append in Hp as [post Hp]. split; [intros _ | lia].
      exists "", post. done.
    + pose proof (Index_lower s substr) as Hlow.
      destruct (Z.ltb_spec (strings.Index s substr) 0) as [Hneg | Hpos].
      * split; [lia |]. intros (pre & post & Heq).
        destruct pre as [|d pre]; simpl in Heq.
        -- assert (String.prefix substr (String c s) = true) as Hp'
             by (apply prefix_append; by exists post).
           congruence.
        -- injection Heq as -> Hs.
           assert (0 ≤ strings.Index s substr) by (apply IH; eauto).
           lia.
      * split; [| lia]. intros _.
        destruct IH as [IH _]. destruct (IH Hpos) as (pre & post & ->).
        exists (String c pre), post. done.
Qed.

Lemma Split_cons s sep : ∃ field fields, strings.Split s sep = field :: fields.
Proof.
  induction s as [|c s (field & fields & IH)]; simpl; [eauto |].
  destruct (Ascii.eqb c sep); [eauto |]. rewrite IH. eauto.
Qed.

Lemma Split_length_append pre s sep :
  length (strings.Split (pre +:+ String sep s) sep)
  = (length (strings.Split pre sep) + length (strings.Split s sep))%nat.
Proof.
  induction pre as [|c pre IH]; simpl.
  - by rewrite Ascii.eqb_refl.
  - destruct (Ascii.eqb c sep); simpl; [by rewrite IH |].
    destruct (Split_cons (pre +:+ String sep s) sep) as (f1 & fs1 & H1).
    destruct (Split_cons pre sep) as (f2 & fs2 & H2).
    rewrite H1, H2 in *. simpl in *. done.
Qed.

Lemma Split_length_Includes s sep :
  Includes s (String sep "") → (2 ≤ length (strings.Split s sep))%nat.
Proof.
  intros (pre & post & ->). simpl. rewrite Split_length_append.
  destruct (Split_cons pre sep) as (? & ? & ->).
  destruct (Split_cons post sep) as (? & ? & ->).
  simpl. lia.
Qed.

Lemma Includes_cons c s substr : Includes s substr → Includes (String c s) substr.
Proof. intros (pre & post & ->). by exists (String c pre), post. Qed.

Lemma extractBaseCommand_BeforeFirstColon s :
  BeforeFirstColon s (extractBaseCommand s).
Proof.
  unfold BeforeFirstColon, extractBaseCommand.
  induction s as [|c s [IHno IHshape]]; simpl.
  - split; [| by left]. intros (pre & post & Heq). by destruct pre.
  - destruct (Ascii.eqb_spec c ":") as [-> | Hne].
    + split; [| right; by exists s]. intros (pre & post & Heq). by destruct pre.
    + destruct (Split_cons s ":") as (field & fields & Hsplit).
      rewrite Hsplit in *. split.
      * intros (pre & post & Heq). destruct pre as [|d pre]; simpl in Heq.
        -- congruence.
        -- injection Heq as -> Heq. apply IHno. by exists pre, post.
      * destruct IHshape as [-> | [rest ->]]; [by left |].
        right. by exists rest.
Qed.

End StringFacts.

(** ** Facts about the machine integers and the status counts *)

Lemma wrap64_small z : - 2 ^ 63 ≤ z ≤ MaxInt64 → wrap64 z = z.
Proof.
  unfold wrap64, MaxInt64. intros Hz.
  rewrite Z.mod_small by lia. lia.
Qed.

Lemma iter_increment n :
  Z.of_nat n ≤ MaxInt64 →
  Nat.iter n (λ z, wrap64 (z + 1)) 0 = Z.of_nat n.
Proof.
  induction n as [|n IH]; intros Hn; [done |].
  rewrite Nat.iter_succ, IH by lia.
  rewrite wrap64_small; unfold MaxInt64 in *; lia.
Qed.

Lemma countStatuses_foldl actionStates statusCounts :
  countStatuses actionStates statusCounts
  = foldl tally statusCounts (omap actionStatusOf actionStates).
Proof.
  revert statusCounts.
  induction actionStates as [|a rest IH]; intros statusCounts; [done |].
  simpl. unfold actionStatusOf at 1.
  destruct a as [| | | | |fields]; try apply IH.
  destruct (fields !! "actionStatus") as [[| | |status| |]|]; simpl; apply IH.
Qed.

Lemma tally_comm (m : gmap string Z) a b : tally (tally m a) b = tally (tally m b) a.
Proof.
  unfold tally. destruct (decide (a = b)) as [-> | Hne]; [done |].
  rewrite !lookup_insert_ne by done.
  by rewrite insert_insert_ne.
Qed.

Lemma foldl_tally_Permutation (m : gmap string Z) statuses1 statuses2 :
  statuses1 ≡ₚ statuses2 → foldl tally m statuses1 = foldl tally m statuses2.
Proof.
  intros Hperm. revert m.
  induction Hperm as [|x l1 l2 _ IH|x y l|l1 l2 l3 _ IH1 _ IH2]; intros m; simpl.
  - done.
  - apply IH.
  - by rewrite tally_comm.
  - by rewrite IH1.
Qed.

Lemma foldl_tally_lookup (m : gmap string Z) statuses status :
  default 0 (foldl tally m statuses !! status)
  = Nat.iter (occurrences status statuses) (λ z, wrap64 (z + 1)) (default 0 (m !! status)).
Proof.
  revert m. induction statuses as [|s statuses IH]; intros m; [done |].
  simpl. rewrite IH. unfold occurrences, tally.
  destruct (decide (s = status)) as [-> | Hne].
  - rewrite filter_cons_True, lookup_insert_eq by done.
    cbn [length]. by rewrite Nat.iter_succ_r.
  - by rewrite filter_cons_False, lookup_insert_ne by done.
Qed.

Lemma occurrences_le status statuses :
  (occurrences status statuses ≤ length statuses)%nat.
Proof. apply length_filter. Qed.

Lemma omap_length_le {A B} (f : A → option B) (l : list A) :
  (length (omap f l) ≤ length l)%nat.
Proof.
  induction l as [|a l IH]; simpl; [done |].
  destruct (f a); simpl; [apply le_n_S | apply le_S]; exact IH.
Qed.

Lemma occurrences_reports actionStates status :
  (0 < occurrences status (omap actionStatusOf actionStates))%nat
  ↔ reports actionStates status.
Proof.
  unfold occurrences, reports. rewrite Exists_exists. split.
  - intros Hpos.
    destruct (filter (λ s, s = status) (omap actionStatusOf actionStates))
      as [|s l] eqn:Hf; [simpl in Hpos; lia |].
    assert (s ∈ filter (λ s, s = status) (omap actionStatusOf actionStates)) as Hin
      by (rewrite Hf; left).
    apply list_elem_of_filter in Hin as [-> Hin].
    apply list_elem_of_omap in Hin as (a & Ha & Hs). eauto.
  - intros (a & Ha & Hs).
    assert (status ∈ filter (λ s, s = status) (omap actionStatusOf actionStates)) as Hin.
    { apply list_elem_of_filter. split; [done |].
      apply list_elem_of_omap. eauto. }
    destruct (filter _ _); [by apply elem_of_nil in Hin | simpl; lia].
Qed.

(** Within the length a slice can have, a count is positive exactly when
    the status occurs, and zero exactly when it does not. *)
Lemma count_reports actionStates status :
  Z.of_nat (length actionStates) ≤ MaxInt64 →
  let count := default 0 (countStatuses actionStates ∅ !! status) in
  (count > 0 ↔ reports actionStates status)
  ∧ (count = 0 ↔ ¬ reports actionStates status).
Proof.
  intros Hlen. simpl.
  rewrite countStatuses_foldl, foldl_tally_lookup, lookup_empty. simpl.
  pose proof (occurrences_le status (omap actionStatusOf actionStates)) as H1.
  pose proof (omap_length_le actionStatusOf actionStates) as H2.
  rewrite iter_increment by lia.
  rewrite <- occurrences_reports. lia.
Qed.

(** ** The state aggregator *)

Section Aggregator.

Context (cfg : Config) (env : Env).

Lemma sendPLCResponse_emit command status p :
  sendPLCResponse cfg env command status p
  = Some (tt, emit (plcResponse cfg env command status) p).
Proof. reflexivity. Qed.

(** C1. For a report handled as an active order, [processActionStates]
    decides by priority on which statuses occur among the reported
    actions: FAILED gives the Failed response and removes the entry;
    else FINISHED with nothing RUNNING, INITIALIZING or WAITING gives
    Success and removes the entry; else RUNNING gives Running; else
    INITIALIZING gives Initializing; else WAITING gives Waiting; and when
    none of the five statuses occurs nothing is published and the state
    is unchanged. (The bound is the length a Go slice can have; within it
    the [int] counts do not wrap. [HandleRobotState] hands a report to
    this function when its order is in ActiveOrders and not in
    CanceledOrders: [HandleRobotState_active].) *)
Theorem C1_active_verdict_by_priority orderID originalCommand actionStates p :
  Z.of_nat (length actionStates) ≤ MaxInt64 →
  let any := reports actionStates in
  let finished :=
    any "FINISHED" ∧ ¬ any "RUNNING" ∧ ¬ any "INITIALIZING" ∧ ¬ any "WAITING" in
  let result := processActionStates cfg env orderID originalCommand actionStates p in
  let respond status := emit (plcResponse cfg env originalCommand status) p in
  let remove p' := withActiveOrders (delete orderID) p' in
  (any "FAILED" → result = Some (tt, remove (respond types.PLCStatusFailed)))
  ∧ (¬ any "FAILED" → finished →
     result = Some (tt, remove (respond types.PLCStatusSuccess)))
  ∧ (¬ any "FAILED" → ¬ finished → any "RUNNING" →
     result = Some (tt, respond types.PLCStatusRunning))
  ∧ (¬ any "FAILED" → ¬ finished → ¬ any "RUNNING" → any "INITIALIZING" →
     result = Some (tt, respond types.PLCStatusInitializing))
  ∧ (¬ any "FAILED" → ¬ finished → ¬ any "RUNNING" → ¬ any "INITIALIZING" →
     any "WAITING" →
     result = Some (tt, respond types.PLCStatusWaiting))
  ∧ (¬ any "FAILED" → ¬ any "FINISHED" → ¬ any "RUNNING" → ¬ any "INITIALIZING" →
     ¬ any "WAITING" →
     result = Some (tt, p)).
Proof.
  intros Hlen. cbv zeta. unfold processActionStates.
  destruct (count_reports actionStates "FAILED" Hlen) as [Hfailed Hfailed0].
  destruct (count_reports actionStates "FINISHED" Hlen) as [Hfinished Hfinished0].
  destruct (count_reports actionStates "RUNNING" Hlen) as [Hrunning Hrunning0].
  destruct (count_reports actionStates "INITIALIZING" Hlen) as [Hinit Hinit0].
  destruct (count_reports actionStates "WAITING" Hlen) as [Hwaiting Hwaiting0].
  cbv zeta in *.
  repeat split; intros; repeat case_bool_decide; try reflexivity; exfalso; tauto.
Qed.

(** C3. [processActionStates] always returns, and its effect is one of
    three: a terminal response (Success or Failed) together with the
    removal of exactly [orderID] from ActiveOrders; a non-terminal
    response (Waiting, Initializing or Running) with ActiveOrders
    unchanged; or no response with ActiveOrders unchanged. CanceledOrders
    and the counter are unchanged in each. *)
Theorem C3_terminal_removes_nonterminal_keeps orderID originalCommand actionStates p :
  ∃ p',
    processActionStates cfg env orderID originalCommand actionStates p = Some (tt, p')
    ∧ canceledOrders p' = canceledOrders p
    ∧ headerIDCounter p' = headerIDCounter p
    ∧ ((∃ status,
          (status = types.PLCStatusSuccess ∨ status = types.PLCStatusFailed)
          ∧ published p' = published p ++ [plcResponse cfg env originalCommand status]
          ∧ activeOrders p' = delete orderID (activeOrders p))
       ∨ (∃ status,
            (status = types.PLCStatusWaiting ∨ status = types.PLCStatusInitializing
             ∨ status = types.PLCStatusRunning)
            ∧ published p' = published p ++ [plcResponse cfg env originalCommand status]
            ∧ activeOrders p' = activeOrders p)
       ∨ (published p' = published p ∧ activeOrders p' = activeOrders p)).
Proof.
  unfold processActionStates. cbv zeta.
  repeat case_bool_decide; eexists; (split; [reflexivity |]); simpl;
    (split; [done |]); (split; [done |]).
  - left. exists types.PLCStatusFailed. auto.
  - left. exists types.PLCStatusSuccess. auto.
  - right; left. exists types.PLCStatusRunning. auto.
  - right; left. exists types.PLCStatusInitializing. auto.
  - right; left. exists types.PLCStatusWaiting. auto.
  - right; right. auto.
Qed.

Lemma statuses_Permutation (l1 l2 : list json) :
  l1 ≡ₚ l2 → omap actionStatusOf l1 ≡ₚ omap actionStatusOf l2.
Proof. intros H. by rewrite H. Qed.

(** C9. Two reports with the same multiset of action statuses (in
    particular two whose [actionStates] are permutations of each other,
    [statuses_Permutation]) get the same result from
    [processActionStates]: the same response and the same state. *)
Theorem C9_verdict_independent_of_order orderID originalCommand
    (actionStates1 actionStates2 : list json) p :
  omap actionStatusOf actionStates1 ≡ₚ omap actionStatusOf actionStates2 →
  processActionStates cfg env orderID originalCommand actionStates1 p
  = processActionStates cfg env orderID originalCommand actionStates2 p.
Proof.
  intros Hperm. unfold processActionStates.
  rewrite !countStatuses_foldl.
  by rewrite (foldl_tally_Permutation ∅ _ _ Hperm).
Qed.

Lemma processCanceledOrderStates_skip orderID command a rest p :
  skipped a →
  processCanceledOrderStates cfg env orderID command (a :: rest) p
  = processCanceledOrderStates cfg env orderID command rest p.
Proof.
  unfold skipped, actionStatusOf. intros [Hfailed Hfinished]. simpl.
  destruct a as [| | | | |fields]; try done.
  destruct (fields !! "actionStatus") as [[| | |status| |]|]; try done.
  repeat case_bool_decide; congruence.
Qed.

Lemma processCanceledOrderStates_FAILED orderID command a rest p :
  actionStatusOf a = Some "FAILED" →
  processCanceledOrderStates cfg env orderID command (a :: rest) p
  = Some (tt, withCanceledOrders (delete orderID)
                (emit (plcResponse cfg env command types.PLCStatusFailed) p)).
Proof.
  unfold actionStatusOf. intros Hstatus. simpl.
  destruct a as [| | | | |fields]; try done.
  destruct (fields !! "actionStatus") as [[| | |status| |]|]; try done.
  by simplify_eq.
Qed.

Lemma processCanceledOrderStates_FINISHED orderID command a rest p :
  actionStatusOf a = Some "FINISHED" →
  processCanceledOrderStates cfg env orderID command (a :: rest) p
  = Some (tt, withCanceledOrders (delete orderID)
                (emit (plcResponse cfg env command types.PLCStatusSuccess) p)).
Proof.
  unfold actionStatusOf. intros Hstatus. simpl.
  destruct a as [| | | | |fields]; try done.
  destruct (fields !! "actionStatus") as [[| | |status| |]|]; try done.
  by simplify_eq.
Qed.

(** C2. For a report handled as a canceled order,
    [processCanceledOrderStates] scans the actions in report order: the
    first action that is FAILED or FINISHED, every earlier one being
    skipped, decides (Failed, respectively Success), whatever follows it;
    the response for the cancel command is published and [orderID] is
    removed from CanceledOrders. When every action is skipped nothing
    happens. ([HandleRobotState] hands a report to this function when its
    order is in CanceledOrders: [HandleRobotState_canceled].) *)
Theorem C2_canceled_first_terminal_decides orderID originalCancelCommand actionStates p :
  let result :=
    processCanceledOrderStates cfg env orderID originalCancelCommand actionStates p in
  let resolved status :=
    Some (tt, withCanceledOrders (delete orderID)
                (emit (plcResponse cfg env originalCancelCommand status) p)) in
  (∀ pre a post,
     actionStates = pre ++ a :: post →
     Forall skipped pre →
     (actionStatusOf a = Some "FAILED" → result = resolved types.PLCStatusFailed)
     ∧ (actionStatusOf a = Some "FINISHED" → result = resolved types.PLCStatusSuccess))
  ∧ (Forall skipped actionStates → result = Some (tt, p)).
Proof.
  cbv zeta. split.
  - intros pre a post -> Hpre.
    induction Hpre as [|b pre Hb _ IH]; simpl app.
    + split; intros Ha.
      * by apply processCanceledOrderStates_FAILED.
      * by apply processCanceledOrderStates_FINISHED.
    + rewrite processCanceledOrderStates_skip by done. apply IH.
  - intros Hall. induction Hall as [|b rest Hb _ IH]; [done |].
    by rewrite processCanceledOrderStates_skip.
Qed.

End Aggregator.

(** ** The command classifier *)

Section Classifier.

Context (cfg : Config) (env : Env).

Lemma isCancelCommand_EndsWith commandStr :
  isCancelCommand commandStr = true ↔ EndsWith commandStr ":C".
Proof. apply HasSuffix_EndsWith. Qed.

Lemma isDirectActionCommand_iff commandStr :
  isDirectActionCommand commandStr = true
  ↔ EndsWith commandStr ":I" ∨ Includes commandStr ":T".
Proof.
  unfold isDirectActionCommand.
  by rewrite orb_true_iff, HasSuffix_EndsWith, Contains_Includes.
Qed.

Lemma direct_action_has_colon commandStr :
  EndsWith commandStr ":I" ∨ Includes commandStr ":T" → Includes commandStr ":".
Proof.
  intros [[pre ->] | (pre & post & ->)].
  - by exists pre, "I".
  - by exists pre, ("T" +:+ post).
Qed.

(** C10. A command that passes the direct-action test has at least two
    [':']-separated fields, so the guard [len(parts) < 2] of
    [handleDirectAction] is false for it: its Failed branch is never
    taken. *)
Theorem C10_direct_action_has_two_fields commandStr :
  isDirectActionCommand commandStr = true →
  (2 ≤ length (strings.Split commandStr ":"))%nat
  ∧ bool_decide (length (strings.Split commandStr ":") < 2)%nat = false.
Proof.
  intros Hdirect%isDirectActionCommand_iff%direct_action_has_colon.
  apply (Split_length_Includes _ ":"%char) in Hdirect.
  split; [done |]. apply bool_decide_eq_false. lia.
Qed.

(** A direct-action command whose second field is empty makes
    [parts[1][0]] panic. *)
Lemma handleDirectAction_empty_field commandStr field0 fields p :
  strings.Split commandStr ":" = field0 :: "" :: fields →
  handleDirectAction cfg env commandStr p = None.
Proof.
  intros Hsplit. unfold handleDirectAction. rewrite Hsplit.
  rewrite bool_decide_eq_false_2 by (simpl; lia). done.
Qed.

(** C6. The command ["B::T"] passes the direct-action test (it contains
    [":T"] and does not end in [":C"]), its second field is empty, and
    reading [parts[1][0]] is out of range: the callback panics. *)
Theorem C6_empty_second_field_panics p :
  isCancelCommand "B::T" = false
  ∧ isDirectActionCommand "B::T" = true
  ∧ strings.Split "B::T" ":" = ["B"; ""; "T"]
  ∧ handleDirectAction cfg env "B::T" p = None
  ∧ HandlePLCCommand cfg env "B::T" p = None.
Proof.
  repeat split; reflexivity.
Qed.

(** C4. [HandlePLCCommand] classifies the trimmed command by the rules
    in their order: ending in [":C"] it is a cancel (whatever else it
    contains), handled with the part before the first [':'] as base
    command; otherwise, ending in [":I"] or containing [":T"], it is a
    direct action; otherwise it is invalid: the only effect is the
    publication of the Failed response [<base>:F], with no robot-bound
    document, no tracker entry and no use of the counter. *)
Theorem C4_classification_in_order payload p :
  let commandStr := strings.TrimSpace payload in
  let result := HandlePLCCommand cfg env payload p in
  BeforeFirstColon commandStr (extractBaseCommand commandStr)
  ∧ (EndsWith commandStr ":C" →
     result = handleCancelCommand cfg env commandStr p)
  ∧ (¬ EndsWith commandStr ":C" →
     EndsWith commandStr ":I" ∨ Includes commandStr ":T" →
     result = handleDirectAction cfg env commandStr p)
  ∧ (¬ EndsWith commandStr ":C" →
     ¬ EndsWith commandStr ":I" →
     ¬ Includes commandStr ":T" →
     result
     = Some (tt, emit {| topic := PlcResponseTopic cfg;
                         payload := Text (extractBaseCommand commandStr +:+ ":F");
                         delivered := plcPublish env |} p)).
Proof.
  cbv zeta. unfold HandlePLCCommand.
  split; [apply extractBaseCommand_BeforeFirstColon |].
  destruct (isCancelCommand (strings.TrimSpace payload)) eqn:Hcancel.
  - apply isCancelCommand_EndsWith in Hcancel. repeat split; tauto.
  - assert (¬ EndsWith (strings.TrimSpace payload) ":C") as Hno.
    { rewrite <- isCancelCommand_EndsWith. congruence. }
    destruct (isDirectActionCommand (strings.TrimSpace payload)) eqn:Hdirect.
    + apply isDirectActionCommand_iff in Hdirect. repeat split; tauto.
    + assert (¬ (EndsWith (strings.TrimSpace payload) ":I"
                 ∨ Includes (strings.TrimSpace payload) ":T")) as Hnone.
      { rewrite <- isDirectActionCommand_iff. congruence. }
      repeat split; tauto.
Qed.

Lemma findTargetOrderID_none baseCommand entries targetOrderID :
  Forall (λ entry, extractBaseCommand entry.2 ≠ baseCommand) entries →
  findTargetOrderID baseCommand entries targetOrderID = targetOrderID.
Proof.
  induction 1 as [|[orderID command] entries Hne _ IH]; simpl; [done |].
  by rewrite bool_decide_eq_false_2.
Qed.

Lemma findTargetOrderID_found baseCommand entries targetOrderID :
  findTargetOrderID baseCommand entries targetOrderID = targetOrderID
  ∨ ∃ command,
      (findTargetOrderID baseCommand entries targetOrderID, command) ∈ entries
      ∧ extractBaseCommand command = baseCommand.
Proof.
  induction entries as [|[orderID command] entries IH]; simpl; [by left |].
  case_bool_decide.
  - right. exists command. split; [left | done].
  - destruct IH as [IH | (command' & Hin & Hbase)]; [by left |].
    right. exists command'. split; [by right | done].
Qed.

Lemma handleCancelCommand_no_target commandStr p :
  EnvOK env →
  (∀ orderID originalCommand,
     activeOrders p !! orderID = Some originalCommand →
     extractBaseCommand originalCommand ≠ extractBaseCommand commandStr) →
  handleCancelCommand cfg env commandStr p
  = Some (tt, emit (plcResponse cfg env commandStr types.PLCStatusFailed) p).
Proof.
  intros Henv Hnone. unfold handleCancelCommand.
  cbv [mbind M_bind getActiveOrders].
  rewrite findTargetOrderID_none; [done |].
  apply Forall_forall. intros [orderID command] Hin. simpl.
  rewrite (Henv (activeOrders p)) in Hin.
  apply elem_of_map_to_list in Hin. eauto.
Qed.

(** C7. A cancel command whose base command is the base of no entry of
    ActiveOrders has one effect: the Failed response is published. No
    instant action is built or published, the counter is not used, and
    both maps are unchanged. *)
Theorem C7_cancel_without_target payload p :
  let commandStr := strings.TrimSpace payload in
  EnvOK env →
  EndsWith commandStr ":C" →
  (∀ orderID originalCommand,
     activeOrders p !! orderID = Some originalCommand →
     extractBaseCommand originalCommand ≠ extractBaseCommand commandStr) →
  HandlePLCCommand cfg env payload p
  = Some (tt, emit (plcResponse cfg env commandStr types.PLCStatusFailed) p).
Proof.
  cbv zeta. intros Henv Hcancel%isCancelCommand_EndsWith Hnone.
  unfold HandlePLCCommand. rewrite Hcancel.
  by apply handleCancelCommand_no_target.
Qed.

End Classifier.

(** ** The effect of a callback *)

Lemma bind_Some {A B} (m : M A) (f : A → M B) (p p'' : Process) (b : B) :
  (m ≫= f) p = Some (b, p'') ↔ ∃ a p', m p = Some (a, p') ∧ f a p' = Some (b, p'').
Proof.
  unfold mbind, M_bind. destruct (m p) as [[a p'] |].
  - split; [eauto |]. by intros (? & ? & [= <- <-] & ?).
  - split; [done |]. by intros (? & ? & ? & ?).
Qed.

Lemma index_Some {A} (xs : list A) (i : nat) (p p' : Process) (x : A) :
  index xs i p = Some (x, p') → xs !! i = Some x ∧ p' = p.
Proof. unfold index. destruct (xs !! i); [by intros [= <- <-] | done]. Qed.

Lemma byteAt_Some (s : string) (i : nat) (p p' : Process) (c : ascii) :
  byteAt s i p = Some (c, p') → String.get i s = Some c ∧ p' = p.
Proof. unfold byteAt. destruct (String.get i s); [by intros [= <- <-] | done]. Qed.

Lemma length_zeros n : String.length (fmt.zeros n) = n.
Proof. induction n as [|n IH]; simpl; [done | by rewrite IH]. Qed.

Lemma length_zeroPad width digits :
  (width ≤ String.length (fmt.zeroPad width digits))%nat.
Proof. unfold fmt.zeroPad. rewrite length_append, length_zeros. lia. Qed.

Lemma Sprintf_016x_nonempty v : fmt.Sprintf_016x v ≠ "".
Proof.
  unfold fmt.Sprintf_016x. destruct (v <? 0); [done |].
  pose proof (length_zeroPad 16 (fmt.hexDigits (Z.to_N v))) as Hlen.
  intros Heq. rewrite Heq in Hlen. simpl in Hlen. lia.
Qed.

Section Transitions.

Context (cfg : Config).

Implicit Types (env : Env) (p : Process).

Lemma robotHeaderID_plcResponse env command status :
  robotHeaderID (plcResponse cfg env command status) = None.
Proof. done. Qed.

(** What [sendDirectActionOrder] does: nothing for an unknown type; else
    one order with the next header id and the generated order id handed
    to the transport, whose answer decides the result. *)
Lemma sendDirectActionOrder_cases env baseCommand commandType armParam p sent p' :
  sendDirectActionOrder cfg env baseCommand commandType armParam p = Some (sent, p') →
  (sent = None ∧ p' = p)
  ∨ ∃ order doc,
      p' = emit doc (withHeaderIDCounter (wrap64 (headerIDCounter p + 1)) p)
      ∧ payload doc = OrderJSON order
      ∧ delivered doc = robotPublish env
      ∧ types.HeaderID order = wrap64 (headerIDCounter p + 1)
      ∧ types.OrderID order = generateOrderID env
      ∧ sent = (if robotPublish env then Some (generateOrderID env) else None).
Proof.
  unfold sendDirectActionOrder, buildActionParameters.
  destruct (Ascii.eqb commandType "I"); [| destruct (Ascii.eqb commandType "T")].
  3: { intros [= <- <-]. by left. }
  all: intros Hrun; right;
    unfold buildOrder, publishOrder, getNextHeaderID, Publish in Hrun;
    cbv [mbind M_bind mret M_ret] in Hrun;
    destruct (robotPublish env) eqn:Hpub;
    injection Hrun as <- <-; do 2 eexists;
    (split; [reflexivity |]); by rewrite ?Hpub.
Qed.

Lemma handleDirectAction_Effect env commandStr p p' :
  handleDirectAction cfg env commandStr p = Some (tt, p') → Effect p p'.
Proof.
  unfold handleDirectAction.
  case_bool_decide as Hlen.
  { intros [= <-]. by apply Effect_response. }
  intros (baseCommand & p1 & [_ ->]%index_Some & Hrun)%bind_Some.
  apply bind_Some in Hrun as (field1 & p1 & [_ ->]%index_Some & Hrun).
  apply bind_Some in Hrun as (cmdType & p1 & [_ ->]%byteAt_Some & Hrun).
  apply bind_Some in Hrun as (armParam & p1 & Harm & Hrun).
  assert (p1 = p) as ->.
  { case_bool_decide; [by apply index_Some in Harm as [_ ->] | by injection Harm]. }
  apply bind_Some in Hrun as (sent & p1 & Hsend & Hrun).
  apply sendDirectActionOrder_cases in Hsend
    as [[-> ->] | (order & doc & -> & Hpayload & Hdelivered & Hheader & Hid & ->)].
  { injection Hrun as <-. by apply Effect_response. }
  destruct (robotPublish env).
  - injection Hrun as <-. rewrite <- Hid.
    apply (Effect_order_sent p order doc commandStr); try done.
    rewrite Hid. apply Sprintf_016x_nonempty.
  - injection Hrun as <-.
    apply (Effect_robot_lost p doc); try done.
    unfold robotHeaderID. by rewrite Hpayload, Hheader.
Qed.

Lemma handleCancelCommand_Effect env commandStr p p' :
  EnvOK env →
  handleCancelCommand cfg env commandStr p = Some (tt, p') → Effect p p'.
Proof.
  intros Henv. unfold handleCancelCommand.
  intros (active & p1 & [= <- <-] & Hrun)%bind_Some.
  destruct (findTargetOrderID_found (extractBaseCommand commandStr)
              (rangeOrder env (activeOrders p)) "") as [Hnone | (command & Hin & _)].
  { rewrite Hnone, bool_decide_eq_true_2 in Hrun by done.
    injection Hrun as <-. by apply Effect_response. }
  case_bool_decide as Htarget.
  { injection Hrun as <-. by apply Effect_response. }
  set (targetOrderID := findTargetOrderID _ _ _) in *. clearbody targetOrderID.
  rewrite (Henv (activeOrders p)) in Hin. apply elem_of_map_to_list in Hin.
  unfold sendCancelOrder, getNextHeaderID, Publish in Hrun.
  cbv [mbind M_bind mret M_ret] in Hrun.
  destruct (robotPublish env) eqn:Hpub; injection Hrun as <-.
  - eapply Effect_cancel_sent; [reflexivity | reflexivity | by eexists].
  - by apply Effect_robot_lost.
Qed.

Lemma HandlePLCCommand_Effect env payload p p' :
  EnvOK env →
  HandlePLCCommand cfg env payload p = Some (tt, p') → Effect p p'.
Proof.
  intros Henv. unfold HandlePLCCommand.
  destruct (isCancelCommand _); [by apply handleCancelCommand_Effect |].
  destruct (isDirectActionCommand _); simpl.
  - apply handleDirectAction_Effect.
  - intros [= <-]. by apply Effect_response.
Qed.

Lemma processActionStates_Effect env orderID originalCommand actionStates p p' :
  processActionStates cfg env orderID originalCommand actionStates p = Some (tt, p') →
  Effect p p'.
Proof.
  unfold processActionStates. cbv zeta.
  repeat case_bool_decide; intros [= <-];
    first [ by apply Effect_active_done | by apply Effect_response | apply Effect_none ].
Qed.

Lemma processCanceledOrderStates_Effect env orderID command actionStates p p' :
  processCanceledOrderStates cfg env orderID command actionStates p = Some (tt, p') →
  Effect p p'.
Proof.
  induction actionStates as [|a rest IH]; simpl.
  { intros [= <-]. apply Effect_none. }
  destruct a as [| | | | |fields]; try done.
  destruct (fields !! "actionStatus") as [[| | |status| |]|]; try done.
  repeat case_bool_decide; try done; intros [= <-]; by apply Effect_canceled_done.
Qed.

Lemma HandleRobotState_Effect env stateMsg p p' :
  HandleRobotState cfg env stateMsg p = Some (tt, p') → Effect p p'.
Proof.
  unfold HandleRobotState.
  destruct stateMsg as [stateMsg |]; [| intros [= <-]; apply Effect_none].
  destruct (stateMsg !! "orderId") as [[| | |orderID| |]|];
    try (intros [= <-]; apply Effect_none).
  case_bool_decide; [| intros [= <-]; apply Effect_none].
  cbv [mbind M_bind getCanceledOrders getActiveOrders].
  destruct (canceledOrders p !! orderID) as [command |].
  - destruct (match stateMsg !! "actionStates" with
              | Some (JArray elems) => Some elems
              | _ => None
              end) as [actionStates |]; [| intros [= <-]; apply Effect_none].
    apply processCanceledOrderStates_Effect.
  - destruct (activeOrders p !! orderID) as [command |];
      [| intros [= <-]; apply Effect_none].
    destruct (match stateMsg !! "actionStates" with
              | Some (JArray elems) => Some elems
              | _ => None
              end) as [actionStates |]; [| intros [= <-]; apply Effect_none].
    apply processActionStates_Effect.
Qed.

Lemma deliver_Effect env msg p p' :
  EnvOK env → deliver cfg env msg p = Some (tt, p') → Effect p p'.
Proof.
  intros Henv. destruct msg as [payload | stateMsg]; simpl.
  - by apply HandlePLCCommand_Effect.
  - apply HandleRobotState_Effect.
Qed.

End Transitions.

(** ** Invariants of the reachable states *)

#[local] Set Warnings "-clear-no-such-hyp".

Lemma wrap64_succ z : wrap64 (wrap64 z + 1) = wrap64 (z + 1).
Proof.
  unfold wrap64. f_equal.
  replace ((z + 2 ^ 63) mod 2 ^ 64 - 2 ^ 63 + 1 + 2 ^ 63)
    with ((z + 2 ^ 63) mod 2 ^ 64 + 1) by lia.
  replace (z + 1 + 2 ^ 63) with (z + 2 ^ 63 + 1) by lia.
  by rewrite Zplus_mod_idemp_l.
Qed.

Lemma robotHeaderIDs_emit pub p :
  robotHeaderIDs (published (emit pub p))
  = robotHeaderIDs (published p) ++ option_list (robotHeaderID pub).
Proof.
  unfold robotHeaderIDs. simpl. rewrite omap_app. simpl.
  by destruct (robotHeaderID pub).
Qed.

Lemma deliveredOrderIDs_emit pub p :
  deliveredOrderIDs (published (emit pub p))
  = deliveredOrderIDs (published p) ++ option_list (deliveredOrderID pub).
Proof.
  unfold deliveredOrderIDs. simpl. rewrite omap_app. simpl.
  by destruct (deliveredOrderID pub).
Qed.

Lemma deliveredOrderID_response pub :
  robotHeaderID pub = None → deliveredOrderID pub = None.
Proof. unfold robotHeaderID, deliveredOrderID. by destruct (payload pub). Qed.

Lemma deliveredOrderID_lost pub :
  delivered pub = false → deliveredOrderID pub = None.
Proof. unfold deliveredOrderID. intros ->. by destruct (payload pub). Qed.

(** A callback hands at most one document to the robot; the document
    carries the incremented counter. *)
Lemma Effect_headerIDs p p' :
  Effect p p' →
  (robotHeaderIDs (published p') = robotHeaderIDs (published p)
   ∧ headerIDCounter p' = headerIDCounter p)
  ∨ (robotHeaderIDs (published p')
     = robotHeaderIDs (published p) ++ [wrap64 (headerIDCounter p + 1)]
     ∧ headerIDCounter p' = wrap64 (headerIDCounter p + 1)).
Proof.
  destruct 1 as [|resp Hresp|resp orderID Hresp|resp orderID Hresp
                 |doc resp Hdoc Hlost Hresp|order doc command Hdoc Hsent Hheader Hid
                 |instantActions doc target command Hdoc Hheader Hactive].
  - by left.
  - left. by rewrite robotHeaderIDs_emit, Hresp, app_nil_r.
  - left. simpl. change (published p ++ [resp]) with (published (emit resp p)).
    by rewrite robotHeaderIDs_emit, Hresp, app_nil_r.
  - left. simpl. change (published p ++ [resp]) with (published (emit resp p)).
    by rewrite robotHeaderIDs_emit, Hresp, app_nil_r.
  - right. by rewrite !robotHeaderIDs_emit, Hresp, Hdoc, app_nil_r.
  - right. simpl. unfold robotHeaderIDs. rewrite omap_app. simpl.
    unfold robotHeaderID. by rewrite Hdoc, Hheader.
  - right. simpl. unfold robotHeaderIDs. rewrite omap_app. simpl.
    unfold robotHeaderID. by rewrite Hdoc, Hheader.
Qed.

(** The effect of a callback on the maps and on the order ids the
    transport accepted: the maps only shrink; or a fresh order is
    recorded under the id just delivered; or an entry of ActiveOrders
    moves to CanceledOrders. *)
Lemma Effect_orderIDs p p' :
  Effect p p' →
  (deliveredOrderIDs (published p') = deliveredOrderIDs (published p)
   ∧ dom (activeOrders p') ⊆ dom (activeOrders p)
   ∧ dom (canceledOrders p') ⊆ dom (canceledOrders p))
  ∨ (∃ orderID command,
       deliveredOrderIDs (published p') = deliveredOrderIDs (published p) ++ [orderID]
       ∧ orderID ≠ ""
       ∧ activeOrders p' = <[orderID := command]> (activeOrders p)
       ∧ canceledOrders p' = canceledOrders p)
  ∨ (∃ orderID command,
       deliveredOrderIDs (published p') = deliveredOrderIDs (published p)
       ∧ is_Some (activeOrders p !! orderID)
       ∧ activeOrders p' = delete orderID (activeOrders p)
       ∧ canceledOrders p' = <[orderID := command]> (canceledOrders p)).
Proof.
  destruct 1 as [|resp Hresp|resp orderID Hresp|resp orderID Hresp
                 |doc resp Hdoc Hlost Hresp|order doc command Hdoc Hsent Hheader Hid
                 |instantActions doc target command Hdoc Hheader Hactive].
  - left. done.
  - left. rewrite deliveredOrderIDs_emit, deliveredOrderID_response, app_nil_r by done.
    done.
  - left. simpl. change (published p ++ [resp]) with (published (emit resp p)).
    rewrite deliveredOrderIDs_emit, deliveredOrderID_response, app_nil_r by done.
    rewrite dom_delete_L. set_solver.
  - left. simpl. change (published p ++ [resp]) with (published (emit resp p)).
    rewrite deliveredOrderIDs_emit, deliveredOrderID_response, app_nil_r by done.
    rewrite dom_delete_L. set_solver.
  - left. rewrite !deliveredOrderIDs_emit.
    rewrite (deliveredOrderID_response resp), (deliveredOrderID_lost doc) by done.
    by rewrite !app_nil_r.
  - right; left. exists (types.OrderID order), command. simpl.
    unfold deliveredOrderIDs. rewrite omap_app. simpl.
    unfold deliveredOrderID. by rewrite Hdoc, Hsent.
  - right; right. exists target, command. simpl.
    unfold deliveredOrderIDs. rewrite omap_app. simpl.
    unfold deliveredOrderID. by rewrite Hdoc, app_nil_r.
Qed.

Section Invariants.

Context (cfg : Config).

(** In a reachable state the counter is the number of documents built
    for the robot so far (as an [int64]), and the k-th of them carries
    the header id k (as an [int64]). *)
Lemma reachable_headerIDs p :
  reachable cfg p →
  headerIDCounter p = wrap64 (Z.of_nat (length (robotHeaderIDs (published p))))
  ∧ robotHeaderIDs (published p)
    = (λ k, wrap64 (Z.of_nat k)) <$> seq 1 (length (robotHeaderIDs (published p))).
Proof.
  induction 1 as [|p p' env msg _ [IHc IHl] Henv Hrun]; [split; reflexivity |].
  apply deliver_Effect in Hrun; [| done].
  apply Effect_headerIDs in Hrun as [[-> ->] | [-> ->]].
  - done.
  - rewrite length_app. simpl length.
    replace (length (robotHeaderIDs (published p)) + 1)%nat
      with (S (length (robotHeaderIDs (published p)))) by lia.
    rewrite IHc, wrap64_succ. split.
    + f_equal. lia.
    + rewrite seq_S, fmap_app, <- IHl. simpl. do 3 f_equal. lia.
Qed.

Lemma reachable_headerID_lookup p i a :
  reachable cfg p →
  robotHeaderIDs (published p) !! i = Some a →
  a = wrap64 (Z.of_nat (S i)) ∧ (i < length (robotHeaderIDs (published p)))%nat.
Proof.
  intros [_ Hids]%reachable_headerIDs Hi.
  pose proof (lookup_lt_Some _ _ _ Hi) as Hlt.
  rewrite Hids, list_lookup_fmap, lookup_seq_lt in Hi by done.
  by injection Hi as <-.
Qed.

(** C8, as amended. While the robot-bound documents built so far are at
    most [MaxInt64] (the counter has not wrapped), the header id of each
    is strictly greater than that of every earlier one; orders and cancel
    instant actions draw from the one counter. *)
Theorem C8_headerID_strictly_increasing p :
  reachable cfg p →
  Z.of_nat (length (robotHeaderIDs (published p))) ≤ MaxInt64 →
  ∀ i j a b,
    (i < j)%nat →
    robotHeaderIDs (published p) !! i = Some a →
    robotHeaderIDs (published p) !! j = Some b →
    a < b.
Proof.
  intros Hreach Hbound i j a b Hij Ha Hb.
  apply reachable_headerID_lookup in Ha as [-> Hi]; [| done].
  apply reachable_headerID_lookup in Hb as [-> Hj]; [| done].
  unfold MaxInt64 in Hbound.
  rewrite !wrap64_small by (unfold MaxInt64; lia). lia.
Qed.

(** While no order id is delivered twice, the two maps are disjoint and
    every key of either is the id of a delivered order. *)
Lemma reachable_tracked p :
  reachable cfg p →
  NoDup (deliveredOrderIDs (published p)) →
  dom (activeOrders p) ## dom (canceledOrders p)
  ∧ ∀ orderID,
      orderID ∈ dom (activeOrders p) ∪ dom (canceledOrders p) →
      orderID ∈ deliveredOrderIDs (published p).
Proof.
  induction 1 as [|p p' env msg _ IH Henv Hrun]; intros Hnodup.
  { simpl. rewrite !dom_empty_L. set_solver. }
  apply deliver_Effect in Hrun; [| done].
  apply Effect_orderIDs in Hrun
    as [(Hids & Ha & Hc) | [(x & c & Hids & _ & Ha & Hc) | (t & c & Hids & Ht & Ha & Hc)]].
  - rewrite Hids in *. destruct (IH Hnodup) as [Hdisj Htracked].
    split; [set_solver |]. intros k Hk. apply Htracked. set_solver.
  - rewrite Hids in *. apply NoDup_app in Hnodup as (Hnodup & Hfresh & _).
    destruct (IH Hnodup) as [Hdisj Htracked].
    assert (x ∉ deliveredOrderIDs (published p)) as Hx.
    { intros Hin. apply (Hfresh x Hin). left. }
    rewrite Ha, Hc, dom_insert_L. split.
    + assert (x ∉ dom (canceledOrders p)) by (intros ?; apply Hx, Htracked; set_solver).
      set_solver.
    + intros k Hk. apply elem_of_app.
      destruct (decide (k = x)) as [-> | Hne]; [right; left |].
      left. apply Htracked. set_solver.
  - rewrite Hids in *. destruct (IH Hnodup) as [Hdisj Htracked].
    apply elem_of_dom in Ht.
    rewrite Ha, Hc, dom_insert_L, dom_delete_L. split; [set_solver |].
    intros k Hk. apply Htracked. set_solver.
Qed.

(** C5, as amended. In every reachable state in which no order id was
    delivered to the robot twice, no order id is a key of both
    ActiveOrders and CanceledOrders. *)
Theorem C5_maps_disjoint_when_orderIDs_fresh p :
  reachable cfg p →
  NoDup (deliveredOrderIDs (published p)) →
  ∀ orderID,
    ¬ (is_Some (activeOrders p !! orderID) ∧ is_Some (canceledOrders p !! orderID)).
Proof.
  intros Hreach Hnodup orderID [Hactive Hcanceled].
  destruct (reachable_tracked p Hreach Hnodup) as [Hdisj _].
  apply elem_of_dom in Hactive, Hcanceled. set_solver.
Qed.

(** No entry is ever recorded under the empty order id, which
    [HandleRobotState] ignores. *)
Lemma reachable_orderID_nonempty p :
  reachable cfg p →
  activeOrders p !! "" = None ∧ canceledOrders p !! "" = None.
Proof.
  induction 1 as [|p p' env msg _ [IHa IHc] Henv Hrun]; [done |].
  apply not_elem_of_dom in IHa, IHc.
  rewrite <- !not_elem_of_dom.
  apply deliver_Effect in Hrun; [| done].
  apply Effect_orderIDs in Hrun
    as [(_ & Ha & Hc) | [(x & c & _ & Hx & Ha & Hc) | (t & c & _ & Ht & Ha & Hc)]].
  - set_solver.
  - rewrite Ha, Hc, dom_insert_L. set_solver.
  - apply elem_of_dom in Ht. rewrite Ha, Hc, dom_insert_L, dom_delete_L.
    assert (orderID_ne : t ≠ "") by (intros ->; done).
    set_solver.
Qed.

(** How [HandleRobotState] dispatches a report that names an order and
    lists its action states: to the canceled-order scan when the order is
    in CanceledOrders, else to the active-order reduction when it is in
    ActiveOrders. *)
Lemma HandleRobotState_canceled env stateMsg orderID command actionStates p :
  reachable cfg p →
  stateMsg !! "orderId" = Some (JString orderID) →
  stateMsg !! "actionStates" = Some (JArray actionStates) →
  canceledOrders p !! orderID = Some command →
  HandleRobotState cfg env (Some stateMsg) p
  = processCanceledOrderStates cfg env orderID command actionStates p.
Proof.
  intros [_ Hempty]%reachable_orderID_nonempty Hid Hstates Hcanceled.
  unfold HandleRobotState. rewrite Hid, Hstates.
  rewrite bool_decide_eq_true_2 by congruence.
  cbv [mbind M_bind getCanceledOrders]. by rewrite Hcanceled.
Qed.

Lemma HandleRobotState_active env stateMsg orderID command actionStates p :
  reachable cfg p →
  stateMsg !! "orderId" = Some (JString orderID) →
  stateMsg !! "actionStates" = Some (JArray actionStates) →
  canceledOrders p !! orderID = None →
  activeOrders p !! orderID = Some command →
  HandleRobotState cfg env (Some stateMsg) p
  = processActionStates cfg env orderID command actionStates p.
Proof.
  intros [Hempty _]%reachable_orderID_nonempty Hid Hstates Hcanceled Hactive.
  unfold HandleRobotState. rewrite Hid, Hstates.
  rewrite bool_decide_eq_true_2 by congruence.
  cbv [mbind M_bind getCanceledOrders getActiveOrders].
  by rewrite Hcanceled, Hactive.
Qed.

End Invariants.

(** ** Runs from a fresh process *)

Lemma testEnv_OK now : EnvOK (testEnv now).
Proof. intros m. reflexivity. Qed.

Lemma run_reachable cfg msgs p p' :
  reachable cfg p →
  Forall (λ m, EnvOK m.1) msgs →
  run cfg msgs p = Some (tt, p') →
  reachable cfg p'.
Proof.
  intros Hreach Hok. revert p Hreach.
  induction Hok as [|[env msg] msgs Henv _ IH]; intros p Hreach; simpl.
  { by intros [= <-]. }
  intros (u & p1 & Hstep & Hrest)%bind_Some. destruct u.
  apply (IH p1); [| done]. by apply (reachable_deliver cfg p p1 env msg).
Qed.

Lemma stateAfter_reachable cfg msgs :
  Forall (λ m, EnvOK m.1) msgs → reachable cfg (stateAfter cfg msgs).
Proof.
  intros Hok. unfold stateAfter.
  destruct (run cfg msgs NewDirectActionHandler) as [[[] p] |] eqn:Hrun.
  - eapply run_reachable; [apply reachable_init | done..].
  - apply reachable_init.
Qed.

(** A direct-action command the transport accepts always adds one
    document for the robot. *)
Lemma direct_action_adds_document p :
  ∃ p',
    deliver testConfig (testEnv 0) (PLCCommand "A:I") p = Some (tt, p')
    ∧ length (robotHeaderIDs (published p')) = S (length (robotHeaderIDs (published p))).
Proof.
  eexists. split; [reflexivity |].
  simpl. unfold robotHeaderIDs. rewrite omap_app, length_app. simpl. lia.
Qed.

Lemma reachable_robot_messages n :
  ∃ p, reachable testConfig p ∧ length (robotHeaderIDs (published p)) = n.
Proof.
  induction n as [|n (p & Hreach & Hlen)].
  - exists NewDirectActionHandler. split; [apply reachable_init | done].
  - destruct (direct_action_adds_document p) as (p' & Hstep & Hlen').
    exists p'. split; [| by rewrite Hlen', Hlen].
    eapply reachable_deliver; [done | apply (testEnv_OK 0) | done].
Qed.

(** ** The properties on concrete inputs *)

Lemma C1_witness :
  processActionStates testConfig (testEnv 7) "0000000000000005" "PICK:I"
    [actionState "FINISHED"; actionState "RUNNING"] NewDirectActionHandler
  = Some (tt, emit (plcResponse testConfig (testEnv 7) "PICK:I" "R")
                NewDirectActionHandler).
Proof.
  assert (Z.of_nat (length [actionState "FINISHED"; actionState "RUNNING"]) ≤ MaxInt64)
    as Hlen by (vm_compute; discriminate).
  destruct (C1_active_verdict_by_priority testConfig (testEnv 7) "0000000000000005"
              "PICK:I" [actionState "FINISHED"; actionState "RUNNING"]
              NewDirectActionHandler Hlen) as (_ & _ & Hrunning & _).
  apply Hrunning.
  - refine (bool_decide_unpack _ _). vm_compute. exact I.
  - refine (bool_decide_unpack _ _). vm_compute. exact I.
  - refine (bool_decide_unpack _ _). vm_compute. exact I.
Defined.

Lemma C2_witness :
  processCanceledOrderStates testConfig (testEnv 7) "0000000000000005" "PICK:C"
    [actionState "RUNNING"; actionState "FINISHED"; actionState "FAILED"]
    NewDirectActionHandler
  = Some (tt, withCanceledOrders (delete "0000000000000005")
                (emit (plcResponse testConfig (testEnv 7) "PICK:C" "S")
                   NewDirectActionHandler)).
Proof.
  destruct (C2_canceled_first_terminal_decides testConfig (testEnv 7)
              "0000000000000005" "PICK:C"
              [actionState "RUNNING"; actionState "FINISHED"; actionState "FAILED"]
              NewDirectActionHandler) as [Hfirst _].
  destruct (Hfirst [actionState "RUNNING"] (actionState "FINISHED") [actionState "FAILED"])
    as [_ Hfinished].
  - reflexivity.
  - refine (bool_decide_unpack _ _). vm_compute. exact I.
  - apply Hfinished. reflexivity.
Defined.

Lemma C4_witness :
  HandlePLCCommand testConfig (testEnv 0) " FOO:X " NewDirectActionHandler
  = Some (tt, emit {| topic := "bridge/response";
                      payload := Text "FOO:F";
                      delivered := true |} NewDirectActionHandler).
Proof.
  destruct (C4_classification_in_order testConfig (testEnv 0) " FOO:X "
              NewDirectActionHandler) as (_ & _ & _ & Hinvalid).
  apply Hinvalid.
  - rewrite <- HasSuffix_EndsWith. vm_compute. discriminate.
  - rewrite <- HasSuffix_EndsWith. vm_compute. discriminate.
  - rewrite <- Contains_Includes. vm_compute. discriminate.
Defined.

Lemma C7_witness :
  HandlePLCCommand testConfig (testEnv 6) "MOVE:C"
    (stateAfter testConfig [(testEnv 5, PLCCommand "PICK:I")])
  = Some (tt, emit (plcResponse testConfig (testEnv 6) "MOVE:C" "F")
                (stateAfter testConfig [(testEnv 5, PLCCommand "PICK:I")])).
Proof.
  apply (C7_cancel_without_target testConfig (testEnv 6) "MOVE:C"
           (stateAfter testConfig [(testEnv 5, PLCCommand "PICK:I")])).
  - apply testEnv_OK.
  - exists "MOVE". reflexivity.
  - intros orderID originalCommand.
    change (activeOrders (stateAfter testConfig [(testEnv 5, PLCCommand "PICK:I")]))
      with (<["0000000000000005" := "PICK:I"]> (∅ : gmap string string)).
    intros [[_ <-] | [_ Hempty]]%lookup_insert_Some; [vm_compute; discriminate |].
    by rewrite lookup_empty in Hempty.
Defined.

Lemma C9_witness :
  processActionStates testConfig (testEnv 7) "0000000000000005" "PICK:I"
    [actionState "FINISHED"; actionState "RUNNING"; actionState "WAITING"]
    NewDirectActionHandler
  = processActionStates testConfig (testEnv 7) "0000000000000005" "PICK:I"
      [actionState "WAITING"; actionState "FINISHED"; actionState "RUNNING"]
      NewDirectActionHandler.
Proof.
  apply (C9_verdict_independent_of_order testConfig (testEnv 7)).
  vm_compute.
  apply (Permutation_cons_app ["WAITING"] ["RUNNING"] "FINISHED").
  apply perm_swap.
Defined.

Lemma C10_witness :
  (2 ≤ length (strings.Split "MOVE:T:L" ":"))%nat
  ∧ bool_decide (length (strings.Split "MOVE:T:L" ":") < 2)%nat = false.
Proof.
  apply (C10_direct_action_has_two_fields "MOVE:T:L"). reflexivity.
Defined.

(** C5: the claim without the freshness of order ids fails. The clock
    reads the same nanosecond for the order of ["PICK:I"] and, after that
    order was canceled, for the order of ["MOVE:T"]: the id is then a key
    of both maps. *)
Lemma C5_orderID_in_both_maps :
  let p := stateAfter testConfig
             [ (testEnv 5, PLCCommand "PICK:I");
               (testEnv 6, PLCCommand "PICK:C");
               (testEnv 5, PLCCommand "MOVE:T") ] in
  reachable testConfig p
  ∧ activeOrders p !! "0000000000000005" = Some "MOVE:T"
  ∧ canceledOrders p !! "0000000000000005" = Some "PICK:C".
Proof.
  cbv zeta. split.
  - apply stateAfter_reachable. repeat constructor; apply testEnv_OK.
  - split; vm_compute; reflexivity.
Qed.

Lemma C5_witness :
  ¬ (is_Some (activeOrders
                (stateAfter testConfig
                   [ (testEnv 5, PLCCommand "PICK:I");
                     (testEnv 6, PLCCommand "MOVE:T:L");
                     (testEnv 7, PLCCommand "PICK:C") ]) !! "0000000000000005")
     ∧ is_Some (canceledOrders
                  (stateAfter testConfig
                     [ (testEnv 5, PLCCommand "PICK:I");
                       (testEnv 6, PLCCommand "MOVE:T:L");
                       (testEnv 7, PLCCommand "PICK:C") ]) !! "0000000000000005")).
Proof.
  apply (C5_maps_disjoint_when_orderIDs_fresh testConfig).
  - apply stateAfter_reachable. repeat constructor; apply testEnv_OK.
  - refine (bool_decide_unpack _ _). vm_compute. exact I.
Defined.

(** C8: the claim for every run fails. After [2 ^ 63] documents the
    last one carries the header id [- 2 ^ 63], below the [2 ^ 63 - 1] of
    the one before it. *)
Lemma C8_headerID_wraps_around :
  ¬ (∀ p,
       reachable testConfig p →
       ∀ i j a b,
         (i < j)%nat →
         robotHeaderIDs (published p) !! i = Some a →
         robotHeaderIDs (published p) !! j = Some b →
         a < b).
Proof.
  intros Hincreasing.
  assert (∃ n, Z.of_nat n = 2 ^ 63) as [n Hn] by (exists (Z.to_nat (2 ^ 63)); lia).
  destruct (reachable_robot_messages n) as (p & Hreach & Hlen).
  destruct (reachable_headerIDs testConfig p Hreach) as [_ Hids].
  rewrite Hlen in Hids.
  assert (wrap64 (2 ^ 63) = - 2 ^ 63) as Hwrap by reflexivity.
  assert (robotHeaderIDs (published p) !! (n - 2)%nat = Some (2 ^ 63 - 1)) as Ha.
  { rewrite Hids, list_lookup_fmap, lookup_seq_lt by lia. simpl. f_equal.
    rewrite wrap64_small; unfold MaxInt64; lia. }
  assert (robotHeaderIDs (published p) !! (n - 1)%nat = Some (- 2 ^ 63)) as Hb.
  { rewrite Hids, list_lookup_fmap, lookup_seq_lt by lia. simpl. f_equal.
    rewrite <- Hwrap. f_equal. lia. }
  pose proof (Hincreasing p Hreach (n - 2)%nat (n - 1)%nat _ _ ltac:(lia) Ha Hb).
  lia.
Qed.

Lemma C8_witness :
  let ids :=
    robotHeaderIDs
      (published (stateAfter testConfig
                    [ (testEnv 5, PLCCommand "PICK:I");
                      (testEnv 6, PLCCommand "PICK:C");
                      (testEnv 7, PLCCommand "MOVE:T:L") ])) in
  ids !! 0%nat = Some 1 ∧ ids !! 2%nat = Some 3 ∧ 1 < 3.
Proof.
  cbv zeta. split; [reflexivity |]. split; [reflexivity |].
  apply (C8_headerID_strictly_increasing testConfig
           (stateAfter testConfig
              [ (testEnv 5, PLCCommand "PICK:I");
                (testEnv 6, PLCCommand "PICK:C");
                (testEnv 7, PLCCommand "MOVE:T:L") ])) with (i := 0%nat) (j := 2%nat).
  - apply stateAfter_reachable. repeat constructor; apply testEnv_OK.
  - vm_compute. discriminate.
  - lia.
  - reflexivity.
  - reflexivity.
Defined.

(** ** Further properties: the command path *)

Section CommandPath.

Context (cfg : Config) (env : Env).

Lemma parseArmParam_left armParam :
  parseArmParam armParam = if bool_decide (armParam = "L") then "left" else "right".
Proof.
  unfold parseArmParam. repeat case_bool_decide; try done.
  destruct H as [-> | ->]; done.
Qed.

(** Past its guard, [handleDirectAction] hands the first field, the
    first byte of the second and the third field, if any, to
    [sendDirectActionOrder]. *)
Lemma handleDirectAction_fields commandStr baseCommand cmdType rest fields p :
  strings.Split commandStr ":" = baseCommand :: String cmdType rest :: fields →
  handleDirectAction cfg env commandStr p
  = (sent ← sendDirectActionOrder cfg env baseCommand cmdType (default "" (head fields));
     match sent with
     | None => sendPLCResponse cfg env commandStr types.PLCStatusFailed
     | Some orderID => setActiveOrder orderID commandStr
     end) p.
Proof.
  intros Hsplit. unfold handleDirectAction. rewrite Hsplit.
  rewrite bool_decide_eq_false_2 by (simpl; lia).
  destruct fields as [|armParam fields]; reflexivity.
Qed.

Lemma sendDirectActionOrder_unknown baseCommand cmdType armParam p :
  cmdType ≠ "I"%char → cmdType ≠ "T"%char →
  sendDirectActionOrder cfg env baseCommand cmdType armParam p = Some (None, p).
Proof.
  intros HI HT. unfold sendDirectActionOrder, buildActionParameters.
  apply Ascii.eqb_neq in HI, HT. by rewrite HI, HT.
Qed.

Lemma sendDirectActionOrder_valid baseCommand cmdType armParam p :
  cmdType = "I"%char ∨ cmdType = "T"%char →
  ∃ order actionType params,
    DirectActionParameters baseCommand cmdType armParam actionType params
    ∧ SingleActionOrder cfg order actionType params
    ∧ types.HeaderID order = wrap64 (headerIDCounter p + 1)
    ∧ types.OrderID order = generateOrderID env
    ∧ sendDirectActionOrder cfg env baseCommand cmdType armParam p
      = Some (if robotPublish env then Some (generateOrderID env) else None,
              emit {| topic := orderTopic cfg;
                      payload := OrderJSON order;
                      delivered := robotPublish env |}
                (withHeaderIDCounter (wrap64 (headerIDCounter p + 1)) p)).
Proof.
  intros [-> | ->].
  - eexists _, _, _. split; [left; done |].
    split; [| split; [| split]]; cycle 3.
    + unfold sendDirectActionOrder, buildOrder, publishOrder, getNextHeaderID, Publish.
      cbv [mbind M_bind mret M_ret]. simpl.
      destruct (robotPublish env); reflexivity.
    + repeat split. eexists _, _. repeat split.
    + reflexivity.
    + reflexivity.
  - eexists _, _, _. split; [right; rewrite <- parseArmParam_left; done |].
    split; [| split; [| split]]; cycle 3.
    + unfold sendDirectActionOrder, buildOrder, publishOrder, getNextHeaderID, Publish.
      cbv [mbind M_bind mret M_ret]. simpl.
      destruct (robotPublish env); reflexivity.
    + repeat split. eexists _, _. repeat split.
    + reflexivity.
    + reflexivity.
Qed.

(** X5. A direct-action command whose second field starts with a byte
    other than ['I'] and ['T'] gets the Failed response and nothing else:
    no order is built, the counter is not used, nothing is tracked. *)
Theorem X5_unknown_action_type_fails commandStr baseCommand cmdType rest fields p :
  strings.Split commandStr ":" = baseCommand :: String cmdType rest :: fields →
  cmdType ≠ "I"%char →
  cmdType ≠ "T"%char →
  handleDirectAction cfg env commandStr p
  = Some (tt, emit (plcResponse cfg env commandStr types.PLCStatusFailed) p).
Proof.
  intros Hsplit HI HT. rewrite (handleDirectAction_fields _ _ _ _ _ _ Hsplit).
  cbv [mbind M_bind]. by rewrite sendDirectActionOrder_unknown.
Qed.

(** X6. A direct-action command of type ['I'] or ['T'] that the
    transport accepts publishes one order on the robot's order topic (one
    node, one action, the parameters of its type, the next header id, the
    generated order id), records the command under that order id in
    ActiveOrders and publishes no response. *)
Theorem X6_direct_action_accepted commandStr baseCommand cmdType rest fields p :
  strings.Split commandStr ":" = baseCommand :: String cmdType rest :: fields →
  cmdType = "I"%char ∨ cmdType = "T"%char →
  robotPublish env = true →
  ∃ order actionType params,
    DirectActionParameters baseCommand cmdType (default "" (head fields)) actionType params
    ∧ SingleActionOrder cfg order actionType params
    ∧ types.HeaderID order = wrap64 (headerIDCounter p + 1)
    ∧ types.OrderID order = generateOrderID env
    ∧ handleDirectAction cfg env commandStr p
      = Some (tt, withActiveOrders (insert (generateOrderID env) commandStr)
                    (emit {| topic := orderTopic cfg;
                             payload := OrderJSON order;
                             delivered := true |}
                       (withHeaderIDCounter (wrap64 (headerIDCounter p + 1)) p))).
Proof.
  intros Hsplit Htype Hpub.
  destruct (sendDirectActionOrder_valid baseCommand cmdType (default "" (head fields)) p Htype)
    as (order & actionType & params & Hparams & Hshape & Hheader & Hid & Hsend).
  exists order, actionType, params. repeat (split; [done |]).
  rewrite (handleDirectAction_fields _ _ _ _ _ _ Hsplit).
  cbv [mbind M_bind]. rewrite Hsend, Hpub. reflexivity.
Qed.

(** X7. When the transport refuses the order of a valid direct-action
    command, the Failed response follows it, nothing is recorded in
    either map, and the header id of the lost order stays consumed. *)
Theorem X7_direct_action_lost commandStr baseCommand cmdType rest fields p :
  strings.Split commandStr ":" = baseCommand :: String cmdType rest :: fields →
  cmdType = "I"%char ∨ cmdType = "T"%char →
  robotPublish env = false →
  ∃ order p',
    handleDirectAction cfg env commandStr p = Some (tt, p')
    ∧ published p'
      = published p
        ++ [ {| topic := orderTopic cfg; payload := OrderJSON order; delivered := false |};
             plcResponse cfg env commandStr types.PLCStatusFailed ]
    ∧ types.HeaderID order = wrap64 (headerIDCounter p + 1)
    ∧ headerIDCounter p' = wrap64 (headerIDCounter p + 1)
    ∧ activeOrders p' = activeOrders p
    ∧ canceledOrders p' = canceledOrders p.
Proof.
  intros Hsplit Htype Hpub.
  destruct (sendDirectActionOrder_valid baseCommand cmdType (default "" (head fields)) p Htype)
    as (order & actionType & params & Hparams & Hshape & Hheader & Hid & Hsend).
  exists order. eexists. split.
  - rewrite (handleDirectAction_fields _ _ _ _ _ _ Hsplit).
    cbv [mbind M_bind]. rewrite Hsend, Hpub. reflexivity.
  - simpl. rewrite <- app_assoc. done.
Qed.

Lemma sendDirectActionOrder_returns baseCommand cmdType armParam p :
  ∃ sent p', sendDirectActionOrder cfg env baseCommand cmdType armParam p = Some (sent, p').
Proof.
  destruct (decide (cmdType = "I"%char ∨ cmdType = "T"%char)) as [Htype | Hother].
  - destruct (sendDirectActionOrder_valid baseCommand cmdType armParam p Htype)
      as (? & ? & ? & _ & _ & _ & _ & ->). eauto.
  - rewrite sendDirectActionOrder_unknown by tauto. eauto.
Qed.

Lemma handleDirectAction_None_iff commandStr p :
  handleDirectAction cfg env commandStr p = None
  ↔ strings.Split commandStr ":" !! 1%nat = Some EmptyString.
Proof.
  destruct (strings.Split commandStr ":") as [|baseCommand [|[|cmdType rest] fields]] eqn:Hsplit.
  - unfold handleDirectAction. rewrite Hsplit. by rewrite bool_decide_eq_true_2 by (simpl; lia).
  - unfold handleDirectAction. rewrite Hsplit. by rewrite bool_decide_eq_true_2 by (simpl; lia).
  - split; [done |]. intros _. by apply (handleDirectAction_empty_field _ _ _ baseCommand fields).
  - rewrite (handleDirectAction_fields _ _ _ _ _ _ Hsplit). cbv [mbind M_bind].
    destruct (sendDirectActionOrder_returns baseCommand cmdType (default "" (head fields)) p)
      as ([orderID |] & p' & ->); done.
Qed.

Lemma handleCancelCommand_returns commandStr p :
  ∃ p', handleCancelCommand cfg env commandStr p = Some (tt, p').
Proof.
  unfold handleCancelCommand. cbv [mbind M_bind getActiveOrders].
  case_bool_decide; [by eexists |].
  unfold sendCancelOrder, getNextHeaderID, Publish. cbv [mbind M_bind].
  destruct (robotPublish env); by eexists.
Qed.

(** X1. The command callback panics exactly on the commands that do not
    end in [":C"], pass the direct-action test and have an empty second
    [':']-separated field; on every other payload it returns. *)
Theorem X1_command_panics_iff payload p :
  let commandStr := strings.TrimSpace payload in
  HandlePLCCommand cfg env payload p = None
  ↔ isCancelCommand commandStr = false
    ∧ isDirectActionCommand commandStr = true
    ∧ strings.Split commandStr ":" !! 1%nat = Some EmptyString.
Proof.
  cbv zeta. unfold HandlePLCCommand.
  destruct (isCancelCommand (strings.TrimSpace payload)).
  { destruct (handleCancelCommand_returns (strings.TrimSpace payload) p) as [p' ->].
    split; [done | by intros [? _]]. }
  destruct (isDirectActionCommand (strings.TrimSpace payload)); simpl.
  - rewrite handleDirectAction_None_iff. tauto.
  - split; [done | by intros (_ & ? & _)].
Qed.

End CommandPath.

(** ** Further properties: cancellation *)

Section CancelPath.

Context (cfg : Config) (env : Env).

Lemma findTargetOrderID_match baseCommand entries targetOrderID :
  (∃ entry, entry ∈ entries ∧ extractBaseCommand entry.2 = baseCommand) →
  ∃ command,
    (findTargetOrderID baseCommand entries targetOrderID, command) ∈ entries
    ∧ extractBaseCommand command = baseCommand.
Proof.
  induction entries as [|[orderID command] entries IH]; simpl.
  { intros (entry & Hin & _). by apply elem_of_nil in Hin. }
  intros (entry & Hin & Hbase). case_bool_decide as Hhead.
  - exists command. split; [left | done].
  - apply elem_of_cons in Hin as [-> | Hin]; [done |].
    destruct IH as (command' & Hin' & Hbase'); [eauto |].
    exists command'. split; [by right | done].
Qed.

(** X8. A cancel command for which ActiveOrders holds an entry of the
    same base command picks such an entry as its target and hands one
    [cancelOrder] instant action with the next header id to the
    transport. Accepted, the entry moves to CanceledOrders under the
    cancel command and no response is published yet; refused, the Failed
    response follows and both maps stay as they were. *)
Theorem X8_cancel_moves_matching_entry commandStr p :
  EnvOK env →
  activeOrders p !! EmptyString = None →
  (∃ orderID original,
     activeOrders p !! orderID = Some original
     ∧ extractBaseCommand original = extractBaseCommand commandStr) →
  ∃ target original instantActions p',
    activeOrders p !! target = Some original
    ∧ extractBaseCommand original = extractBaseCommand commandStr
    ∧ CancelInstantActions cfg instantActions
    ∧ types.IAHeaderID instantActions = wrap64 (headerIDCounter p + 1)
    ∧ handleCancelCommand cfg env commandStr p = Some (tt, p')
    ∧ headerIDCounter p' = wrap64 (headerIDCounter p + 1)
    ∧ if robotPublish env then
        published p'
        = published p
          ++ [ {| topic := instantActionsTopic cfg;
                  payload := InstantActionsJSON instantActions;
                  delivered := true |} ]
        ∧ activeOrders p' = delete target (activeOrders p)
        ∧ canceledOrders p' = <[target := commandStr]> (canceledOrders p)
      else
        published p'
        = published p
          ++ [ {| topic := instantActionsTopic cfg;
                  payload := InstantActionsJSON instantActions;
                  delivered := false |};
               plcResponse cfg env commandStr types.PLCStatusFailed ]
        ∧ activeOrders p' = activeOrders p
        ∧ canceledOrders p' = canceledOrders p.
Proof.
  intros Henv Hempty (orderID & original & Hactive & Hbase).
  destruct (findTargetOrderID_match (extractBaseCommand commandStr)
              (rangeOrder env (activeOrders p)) EmptyString)
    as (command & Hin & Hbase').
  { exists (orderID, original). split; [| done].
    rewrite (Henv (activeOrders p)). by apply elem_of_map_to_list. }
  unfold handleCancelCommand. cbv [mbind M_bind getActiveOrders].
  set (target := findTargetOrderID _ _ _) in *. clearbody target.
  rewrite (Henv (activeOrders p)) in Hin. apply elem_of_map_to_list in Hin.
  rewrite bool_decide_eq_false_2 by (intros ->; congruence).
  unfold sendCancelOrder, getNextHeaderID, Publish. cbv [mbind M_bind mret M_ret].
  exists target, command.
  exists (types.InstantActionsMessage_AddAction
            (types.NewInstantActionsMessage (timeNow env) (wrap64 (headerIDCounter p + 1))
               (RobotManufacturer cfg) (RobotSerialNumber cfg))
            (types.NewInstantAction "cancelOrder" (generateActionID env)
               types.BlockingTypeHard)).
  destruct (robotPublish env); eexists;
    (split; [done |]); (split; [done |]);
    (split; [repeat split; eexists; repeat split |]);
    (split; [reflexivity |]); (split; [reflexivity |]); simpl;
    rewrite <- ?app_assoc; repeat split.
Qed.

End CancelPath.

(** ** Further properties: the state-report path *)

Section StatePath.

Context (cfg : Config) (env : Env).

Lemma processCanceledOrderStates_cases orderID command actionStates p :
  processCanceledOrderStates cfg env orderID command actionStates p = Some (tt, p)
  ∨ ∃ status,
      (status = types.PLCStatusSuccess ∨ status = types.PLCStatusFailed)
      ∧ processCanceledOrderStates cfg env orderID command actionStates p
        = Some (tt, withCanceledOrders (delete orderID)
                      (emit (plcResponse cfg env command status) p)).
Proof.
  induction actionStates as [|a rest IH]; simpl; [by left |].
  destruct a as [| | | | |fields]; try done.
  destruct (fields !! "actionStatus") as [[| | |status| |]|]; try done.
  repeat case_bool_decide; try done.
  - right. exists types.PLCStatusFailed. auto.
  - right. exists types.PLCStatusSuccess. auto.
Qed.

(** The outcomes of the state-report callback: it always returns, with
    the state unchanged, or with one PLC response published and at most
    one entry removed from one of the maps. *)
Lemma HandleRobotState_outcome stateMsg p :
  ∃ p',
    HandleRobotState cfg env stateMsg p = Some (tt, p')
    ∧ (p' = p
       ∨ ∃ orderID command status,
           status ∈ statusLetters
           ∧ (p' = emit (plcResponse cfg env command status) p
              ∨ p' = withActiveOrders (delete orderID)
                       (emit (plcResponse cfg env command status) p)
              ∨ p' = withCanceledOrders (delete orderID)
                       (emit (plcResponse cfg env command status) p))).
Proof.
  assert (∃ p', Some (tt, p) = Some (tt, p')
                ∧ (p' = p
                   ∨ ∃ orderID command status,
                       status ∈ statusLetters
                       ∧ (p' = emit (plcResponse cfg env command status) p
                          ∨ p' = withActiveOrders (delete orderID)
                                   (emit (plcResponse cfg env command status) p)
                          ∨ p' = withCanceledOrders (delete orderID)
                                   (emit (plcResponse cfg env command status) p))))
    as Hsame by (exists p; split; [done | by left]).
  unfold HandleRobotState.
  destruct stateMsg as [stateMsg |]; [| done].
  destruct (stateMsg !! "orderId") as [[| | |orderID| |]|]; try done.
  case_bool_decide; [| done].
  cbv [mbind M_bind getCanceledOrders getActiveOrders].
  destruct (canceledOrders p !! orderID) as [command |].
  - destruct (match stateMsg !! "actionStates" with
              | Some (JArray elems) => Some elems
              | _ => None
              end) as [actionStates |]; [| done].
    destruct (processCanceledOrderStates_cases orderID command actionStates p)
      as [-> | (status & Hstatus & ->)]; [done |].
    eexists. split; [reflexivity |]. right. exists orderID, command, status.
    split; [| by right; right].
    unfold statusLetters. destruct Hstatus as [-> | ->]; set_solver.
  - destruct (activeOrders p !! orderID) as [command |]; [| done].
    destruct (match stateMsg !! "actionStates" with
              | Some (JArray elems) => Some elems
              | _ => None
              end) as [actionStates |]; [| done].
    unfold processActionStates. cbv zeta.
    repeat case_bool_decide; try done;
      (eexists; split; [reflexivity |]; right; exists orderID, command; eexists;
       split; [| first [ left; reflexivity | right; left; reflexivity ] ];
       unfold statusLetters; set_solver).
Qed.

(** X2. The state-report callback never panics, whatever was decoded.
    It never uses the counter and never adds an entry to a map (each map
    stays as it was or loses entries), and it publishes nothing or one
    PLC response. *)
Theorem X2_state_report_frame stateMsg p :
  ∃ p',
    HandleRobotState cfg env stateMsg p = Some (tt, p')
    ∧ headerIDCounter p' = headerIDCounter p
    ∧ activeOrders p' ⊆ activeOrders p
    ∧ canceledOrders p' ⊆ canceledOrders p
    ∧ (published p' = published p
       ∨ ∃ command status,
           published p' = published p ++ [plcResponse cfg env command status]).
Proof.
  destruct (HandleRobotState_outcome stateMsg p) as (p' & -> & Hcases).
  destruct Hcases as [-> | (orderID & command & status & _ & [-> | [-> | ->]])];
    (eexists; split; [reflexivity |]); simpl.
  - repeat (split; [done |]). by left.
  - repeat (split; [done |]). eauto.
  - split; [done |]. split; [apply delete_subseteq |]. split; [done |]. eauto.
  - split; [done |]. split; [done |]. split; [apply delete_subseteq |]. eauto.
Qed.

(** X3. A report is dropped without any effect when the payload did not
    decode, when it has no [orderId] that is a string, when the
    [orderId] is empty, when the order is in neither map, or when it has
    no [actionStates] that is an array. *)
Theorem X3_unusable_report_dropped (stateMsg : option (gmap string json)) p :
  let dropped := HandleRobotState cfg env stateMsg p = Some (tt, p) in
  (stateMsg = None → dropped)
  ∧ (∀ m, stateMsg = Some m →
       (∀ orderID, m !! "orderId" ≠ Some (JString orderID)) → dropped)
  ∧ (∀ m, stateMsg = Some m →
       m !! "orderId" = Some (JString EmptyString) → dropped)
  ∧ (∀ m orderID, stateMsg = Some m →
       m !! "orderId" = Some (JString orderID) →
       canceledOrders p !! orderID = None →
       activeOrders p !! orderID = None → dropped)
  ∧ (∀ m, stateMsg = Some m →
       (∀ elems, m !! "actionStates" ≠ Some (JArray elems)) → dropped).
Proof.
  cbv zeta. unfold HandleRobotState. repeat split.
  - by intros ->.
  - intros m -> Hnone.
    destruct (m !! "orderId") as [[| | |orderID| |]|]; try done.
    by destruct (Hnone orderID).
  - intros m -> ->. done.
  - intros m orderID -> -> Hcanceled Hactive.
    case_bool_decide; [| done].
    cbv [mbind M_bind getCanceledOrders getActiveOrders].
    by rewrite Hcanceled, Hactive.
  - intros m -> Hnone.
    destruct (m !! "orderId") as [[| | |orderID| |]|]; try done.
    case_bool_decide; [| done].
    cbv [mbind M_bind getCanceledOrders getActiveOrders].
    destruct (m !! "actionStates") as [[| | | |elems|]|];
      try (by destruct (canceledOrders p !! orderID), (activeOrders p !! orderID)).
    by destruct (Hnone elems).
Qed.

(** X4. A report for an order that is in CanceledOrders is resolved
    against that entry alone, also when the same id is a key of
    ActiveOrders: ActiveOrders and the counter are unchanged, and either
    nothing happens or a Success or Failed response for the cancel
    command is published and the entry leaves CanceledOrders. Such a
    report never gets a Waiting, Initializing or Running response. *)
Theorem X4_canceled_entry_takes_precedence (m : gmap string json) orderID command p :
  m !! "orderId" = Some (JString orderID) →
  orderID ≠ EmptyString →
  canceledOrders p !! orderID = Some command →
  ∃ p',
    HandleRobotState cfg env (Some m) p = Some (tt, p')
    ∧ activeOrders p' = activeOrders p
    ∧ headerIDCounter p' = headerIDCounter p
    ∧ (p' = p
       ∨ ∃ status,
           (status = types.PLCStatusSuccess ∨ status = types.PLCStatusFailed)
           ∧ published p' = published p ++ [plcResponse cfg env command status]
           ∧ canceledOrders p' = delete orderID (canceledOrders p)).
Proof.
  intros Hid Hne Hcanceled. unfold HandleRobotState. rewrite Hid.
  rewrite bool_decide_eq_true_2 by done.
  cbv [mbind M_bind getCanceledOrders]. rewrite Hcanceled.
  destruct (match m !! "actionStates" with
            | Some (JArray elems) => Some elems
            | _ => None
            end) as [actionStates |]; [| exists p; auto].
  destruct (processCanceledOrderStates_cases orderID command actionStates p)
    as [-> | (status & Hstatus & ->)]; [exists p; auto |].
  eexists. split; [reflexivity |]. simpl. split; [done |]. split; [done |].
  right. exists status. auto.
Qed.

Lemma occurrences_recognized status actionStates :
  status ∈ recognizedStatuses →
  occurrences status (omap actionStatusOf (filter recognized actionStates))
  = occurrences status (omap actionStatusOf actionStates).
Proof.
  intros Hstatus. unfold occurrences. f_equal.
  induction actionStates as [|a rest IH]; [done |].
  destruct (decide (recognized a)) as [Hrec | Hrec].
  - rewrite filter_cons_True by done. cbn [omap list_omap].
    destruct (actionStatusOf a) as [s |]; [| exact IH].
    destruct (decide (s = status)).
    + rewrite !filter_cons_True by done. by rewrite IH.
    + rewrite !filter_cons_False by done. exact IH.
  - rewrite filter_cons_False by done. cbn [omap list_omap]. rewrite IH.
    unfold recognized in Hrec.
    destruct (actionStatusOf a) as [s |]; [| done].
    rewrite filter_cons_False; [done |]. by intros ->.
Qed.

Lemma count_recognized status actionStates :
  status ∈ recognizedStatuses →
  default 0 (countStatuses (filter recognized actionStates) ∅ !! status)
  = default 0 (countStatuses actionStates ∅ !! status).
Proof.
  intros Hstatus.
  by rewrite !countStatuses_foldl, !foldl_tally_lookup, occurrences_recognized.
Qed.

(** X9. The active-order reduction ignores every element of
    [actionStates] that is not an object with one of the five statuses
    as its [actionStatus]: dropping those elements from the report
    changes nothing. *)
Theorem X9_unrecognized_elements_ignored orderID originalCommand actionStates p :
  processActionStates cfg env orderID originalCommand (filter recognized actionStates) p
  = processActionStates cfg env orderID originalCommand actionStates p.
Proof.
  unfold processActionStates. cbv zeta.
  rewrite !count_recognized by (unfold recognizedStatuses; set_solver).
  done.
Qed.

End StatePath.

(** ** Further properties: what the reachable states keep *)

Section Outcomes.

Context (cfg : Config).

Implicit Types (env : Env) (p : Process).

(** The outcomes of the command callback when it returns. *)
Lemma HandlePLCCommand_outcome env payload p p' :
  EnvOK env →
  HandlePLCCommand cfg env payload p = Some (tt, p') →
  let commandStr := strings.TrimSpace payload in
  let next := wrap64 (headerIDCounter p + 1) in
  p' = emit (plcResponse cfg env commandStr types.PLCStatusFailed) p
  ∨ (∃ order baseCommand cmdType armParam actionType params,
       isCancelCommand commandStr = false
       ∧ isDirectActionCommand commandStr = true
       ∧ DirectActionParameters baseCommand cmdType armParam actionType params
       ∧ SingleActionOrder cfg order actionType params
       ∧ types.OrderID order = generateOrderID env
       ∧ (p' = withActiveOrders (insert (generateOrderID env) commandStr)
                 (emit {| topic := orderTopic cfg;
                          payload := OrderJSON order;
                          delivered := true |} (withHeaderIDCounter next p))
          ∨ p' = emit (plcResponse cfg env commandStr types.PLCStatusFailed)
                   (emit {| topic := orderTopic cfg;
                            payload := OrderJSON order;
                            delivered := false |} (withHeaderIDCounter next p))))
  ∨ (∃ instantActions target,
       isCancelCommand commandStr = true
       ∧ CancelInstantActions cfg instantActions
       ∧ is_Some (activeOrders p !! target)
       ∧ (p' = withCanceledOrders (insert target commandStr)
                 (withActiveOrders (delete target)
                    (emit {| topic := instantActionsTopic cfg;
                             payload := InstantActionsJSON instantActions;
                             delivered := true |} (withHeaderIDCounter next p)))
          ∨ p' = emit (plcResponse cfg env commandStr types.PLCStatusFailed)
                   (emit {| topic := instantActionsTopic cfg;
                            payload := InstantActionsJSON instantActions;
                            delivered := false |} (withHeaderIDCounter next p)))).
Proof.
  intros Henv. cbv zeta. unfold HandlePLCCommand.
  set (commandStr := strings.TrimSpace payload). clearbody commandStr.
  destruct (isCancelCommand commandStr) eqn:Hcancel.
  - unfold handleCancelCommand. cbv [mbind M_bind getActiveOrders].
    destruct (findTargetOrderID_found (extractBaseCommand commandStr)
                (rangeOrder env (activeOrders p)) EmptyString)
      as [Hnone | (command & Hin & _)].
    { rewrite Hnone, bool_decide_eq_true_2 by done. intros [= <-]. by left. }
    set (target := findTargetOrderID _ _ _) in *. clearbody target.
    case_bool_decide; [intros [= <-]; by left |].
    rewrite (Henv (activeOrders p)) in Hin. apply elem_of_map_to_list in Hin.
    unfold sendCancelOrder, getNextHeaderID, Publish. cbv [mbind M_bind mret M_ret].
    intros Hrun. right; right.
    exists (types.InstantActionsMessage_AddAction
              (types.NewInstantActionsMessage (timeNow env) (wrap64 (headerIDCounter p + 1))
                 (RobotManufacturer cfg) (RobotSerialNumber cfg))
              (types.NewInstantAction "cancelOrder" (generateActionID env)
                 types.BlockingTypeHard)), target.
    split; [done |]. split; [repeat split; eexists; repeat split |].
    split; [by eexists |].
    destruct (robotPublish env); injection Hrun as <-; [by left | by right].
  - destruct (isDirectActionCommand commandStr) eqn:Hdirect; simpl;
      [| intros [= <-]; by left].
    destruct (strings.Split commandStr ":")
      as [|baseCommand [|[|cmdType rest] fields]] eqn:Hsplit.
    + unfold handleDirectAction. rewrite Hsplit.
      rewrite bool_decide_eq_true_2 by (simpl; lia). intros [= <-]. by left.
    + unfold handleDirectAction. rewrite Hsplit.
      rewrite bool_decide_eq_true_2 by (simpl; lia). intros [= <-]. by left.
    + by rewrite (handleDirectAction_empty_field cfg env _ baseCommand fields).
    + destruct (decide (cmdType = "I"%char ∨ cmdType = "T"%char)) as [Htype | Hother].
      * rewrite (handleDirectAction_fields cfg env _ _ _ _ _ _ Hsplit).
        destruct (sendDirectActionOrder_valid cfg env baseCommand cmdType
                    (default "" (head fields)) p Htype)
          as (order & actionType & params & Hparams & Hshape & _ & Hid & Hsend).
        cbv [mbind M_bind]. rewrite Hsend. intros Hrun. right; left.
        exists order, baseCommand, cmdType, (default "" (head fields)), actionType, params.
        repeat (split; [done |]).
        destruct (robotPublish env); injection Hrun as <-; [by left | by right].
      * rewrite (handleDirectAction_fields cfg env _ _ _ _ _ _ Hsplit).
        cbv [mbind M_bind]. rewrite sendDirectActionOrder_unknown by tauto.
        intros [= <-]. by left.
Qed.

End Outcomes.

Section Kept.

Context (cfg : Config).

Implicit Types (env : Env) (p : Process).

Lemma WellFormed_plcResponse env command status :
  status ∈ statusLetters →
  WellFormedPublication cfg (plcResponse cfg env command status).
Proof.
  intros Hstatus. split; [done |].
  exists (extractBaseCommand command), status. split; [done |].
  split; [| done]. apply extractBaseCommand_BeforeFirstColon.
Qed.

Lemma Failed_statusLetter : types.PLCStatusFailed ∈ statusLetters.
Proof. unfold statusLetters. set_solver. Qed.

Lemma WellFormed_order env order baseCommand cmdType armParam actionType params ok :
  DirectActionParameters baseCommand cmdType armParam actionType params →
  SingleActionOrder cfg order actionType params →
  WellFormedPublication cfg
    {| topic := orderTopic cfg; payload := OrderJSON order; delivered := ok |}.
Proof.
  intros Hparams Hshape. split; [reflexivity |].
  exists baseCommand, cmdType, armParam, actionType, params. by split.
Qed.

Lemma WellFormed_cancel instantActions ok :
  CancelInstantActions cfg instantActions →
  WellFormedPublication cfg
    {| topic := instantActionsTopic cfg;
       payload := InstantActionsJSON instantActions;
       delivered := ok |}.
Proof. intros Hshape. split; [reflexivity | exact Hshape]. Qed.

Lemma deliver_publications env msg p p' :
  EnvOK env →
  deliver cfg env msg p = Some (tt, p') →
  ∃ new,
    published p' = published p ++ new ∧ Forall (WellFormedPublication cfg) new.
Proof.
  intros Henv. destruct msg as [payload | stateMsg]; simpl.
  - intros Hrun. apply HandlePLCCommand_outcome in Hrun; [| done].
    pose proof (WellFormed_plcResponse env (strings.TrimSpace payload) _
                  Failed_statusLetter) as Hfailed.
    destruct Hrun
      as [-> | [(order & b & c & a & actionType & params & _ & _ & Hparams & Hshape & _
                 & [-> | ->])
               | (instantActions & target & _ & Hshape & _ & [-> | ->])]].
    + eexists. split; [reflexivity |]. constructor; [exact Hfailed | constructor].
    + eexists. split; [reflexivity |].
      constructor; [| constructor].
      exact (WellFormed_order env order b c a actionType params true Hparams Hshape).
    + exists [ {| topic := orderTopic cfg; payload := OrderJSON order; delivered := false |};
               plcResponse cfg env (strings.TrimSpace payload) types.PLCStatusFailed ].
      split; [unfold emit; cbn [published]; by rewrite <- app_assoc |].
      constructor;
        [exact (WellFormed_order env order b c a actionType params false Hparams Hshape) |].
      constructor; [exact Hfailed | constructor].
    + eexists. split; [reflexivity |].
      constructor; [| constructor]. by apply WellFormed_cancel.
    + exists [ {| topic := instantActionsTopic cfg;
                  payload := InstantActionsJSON instantActions;
                  delivered := false |};
               plcResponse cfg env (strings.TrimSpace payload) types.PLCStatusFailed ].
      split; [unfold emit; cbn [published]; by rewrite <- app_assoc |].
      constructor; [by apply WellFormed_cancel |].
      constructor; [exact Hfailed | constructor].
  - intros Hrun.
    destruct (HandleRobotState_outcome cfg env stateMsg p) as (q & Hq & Hcases).
    rewrite Hq in Hrun. injection Hrun as <-.
    destruct Hcases as [-> | (orderID & command & status & Hstatus & [-> | [-> | ->]])].
    + exists []. split; [by rewrite app_nil_r | constructor].
    + eexists. split; [reflexivity |].
      constructor; [by apply WellFormed_plcResponse | constructor].
    + eexists. split; [reflexivity |].
      constructor; [by apply WellFormed_plcResponse | constructor].
    + eexists. split; [reflexivity |].
      constructor; [by apply WellFormed_plcResponse | constructor].
Qed.

(** X11. Everything a process ever hands to the transport is one of
    three things, each on its own topic: a text [<base>:<letter>] with a
    colon-free base and one of the five status letters on the PLC
    response topic; an order of one node and one action (an inference or
    a trajectory) on the robot's order topic; or a message of one
    blocking [cancelOrder] action on the robot's instant-actions topic. *)
Theorem X11_publications_well_formed p :
  reachable cfg p → Forall (WellFormedPublication cfg) (published p).
Proof.
  induction 1 as [|p p' env msg _ IH Henv Hrun]; [constructor |].
  apply deliver_publications in Hrun as (new & -> & Hnew); [| done].
  by apply Forall_app.
Qed.

Lemma deliveredOrderIDs_snoc pubs pub :
  deliveredOrderIDs (pubs ++ [pub])
  = deliveredOrderIDs pubs ++ option_list (deliveredOrderID pub).
Proof.
  unfold deliveredOrderIDs. rewrite omap_app. simpl.
  by destruct (deliveredOrderID pub).
Qed.

Ltac state_simpl :=
  cbn [published activeOrders canceledOrders headerIDCounter
       emit withActiveOrders withCanceledOrders withHeaderIDCounter].

(** What a callback does to the entries of the two maps and to the order
    ids the transport accepted. *)
Lemma deliver_entries env msg p p' :
  EnvOK env →
  deliver cfg env msg p = Some (tt, p') →
  (∃ more, deliveredOrderIDs (published p') = deliveredOrderIDs (published p) ++ more)
  ∧ (∀ k v,
       activeOrders p' !! k = Some v →
       activeOrders p !! k = Some v
       ∨ (k ≠ EmptyString ∧ k ∈ deliveredOrderIDs (published p')
          ∧ isCancelCommand v = false ∧ isDirectActionCommand v = true))
  ∧ (∀ k v,
       canceledOrders p' !! k = Some v →
       canceledOrders p !! k = Some v
       ∨ (is_Some (activeOrders p !! k) ∧ isCancelCommand v = true)).
Proof.
  intros Henv. destruct msg as [payload | stateMsg]; simpl.
  - intros Hrun. apply HandlePLCCommand_outcome in Hrun; [| done].
    destruct Hrun
      as [-> | [(order & b & c & a & actionType & params & Hcancel & Hdirect & _ & _ & Hid
                 & [-> | ->])
               | (instantActions & target & Hcancel & _ & Htarget & [-> | ->])]];
      state_simpl; rewrite ?deliveredOrderIDs_snoc; simpl.
    + split; [exists []; by rewrite !app_nil_r |]. auto.
    + split; [by eexists |]. split; [| auto].
      intros k v [[<- <-] | [_ Hold]]%lookup_insert_Some; [right | by left].
      split; [apply Sprintf_016x_nonempty |]. split; [| done].
      apply elem_of_app. right. rewrite Hid. left.
    + split; [| auto]. exists []. by rewrite !app_nil_r.
    + split; [exists []; by rewrite !app_nil_r |]. split.
      * intros k v [_ Hold]%lookup_delete_Some. by left.
      * intros k v [[<- <-] | [_ Hold]]%lookup_insert_Some; [by right | by left].
    + split; [| auto]. exists []. by rewrite !app_nil_r.
  - intros Hrun.
    destruct (HandleRobotState_outcome cfg env stateMsg p) as (q & Hq & Hcases).
    rewrite Hq in Hrun. injection Hrun as <-.
    destruct Hcases as [-> | (orderID & command & status & _ & [-> | [-> | ->]])];
      state_simpl; rewrite ?deliveredOrderIDs_snoc; simpl.
    + split; [exists []; by rewrite app_nil_r |]. auto.
    + split; [exists []; by rewrite !app_nil_r |]. auto.
    + split; [exists []; by rewrite !app_nil_r |].
      split; [| auto]. intros k v [_ Hold]%lookup_delete_Some. by left.
    + split; [exists []; by rewrite !app_nil_r |].
      split; [auto |]. intros k v [_ Hold]%lookup_delete_Some. by left.
Qed.

(** X10. In every reachable state each entry of ActiveOrders holds,
    under the non-empty id of an order the transport accepted, a command
    that passed the direct-action test and is no cancel; each entry of
    CanceledOrders holds, under such an id, a cancel command. *)
Theorem X10_tracker_entries p :
  reachable cfg p →
  (∀ orderID command,
     activeOrders p !! orderID = Some command →
     orderID ≠ EmptyString
     ∧ orderID ∈ deliveredOrderIDs (published p)
     ∧ isCancelCommand command = false
     ∧ isDirectActionCommand command = true)
  ∧ (∀ orderID command,
       canceledOrders p !! orderID = Some command →
       orderID ≠ EmptyString
       ∧ orderID ∈ deliveredOrderIDs (published p)
       ∧ isCancelCommand command = true).
Proof.
  induction 1 as [|p p' env msg _ [IHa IHc] Henv Hrun];
    [split; intros k v Hk; simpl in Hk; by rewrite lookup_empty in Hk |].
  apply deliver_entries in Hrun as ([more Hmore] & Hactive & Hcanceled); [| done].
  split.
  - intros k v [Hold | Hnew]%Hactive; [| done].
    destruct (IHa k v Hold) as (? & ? & ? & ?).
    repeat (split; [done |]). split; [| done].
    rewrite Hmore. apply elem_of_app. by left.
  - intros k v [Hold | [[original Hwas] Hcancel]]%Hcanceled.
    + destruct (IHc k v Hold) as (? & ? & ?).
      split; [done |]. split; [| done].
      rewrite Hmore. apply elem_of_app. by left.
    + destruct (IHa k original Hwas) as (? & ? & _).
      split; [done |]. split; [| done].
      rewrite Hmore. apply elem_of_app. by left.
Qed.

(** X16. In every reachable state the counter is the number of
    robot-bound documents handed to the transport so far, accepted or
    refused, and the k-th of them carries the header id k (both as
    [int64]): no header id is skipped or used twice before the counter
    wraps. *)
Theorem X16_header_ids_count_documents p :
  reachable cfg p →
  headerIDCounter p = wrap64 (Z.of_nat (length (robotHeaderIDs (published p))))
  ∧ ∀ i a,
      robotHeaderIDs (published p) !! i = Some a → a = wrap64 (Z.of_nat (S i)).
Proof.
  intros Hreach. split; [by destruct (reachable_headerIDs cfg p Hreach) |].
  intros i a Ha. by destruct (reachable_headerID_lookup cfg p i a Hreach Ha).
Qed.

End Kept.

(** ** Further properties: responses, identifiers, the earlier aggregator *)

Lemma Split_append_sep pre rest sep :
  ¬ Includes pre (String sep EmptyString) →
  strings.Split (pre +:+ String sep rest) sep = pre :: strings.Split rest sep.
Proof.
  induction pre as [|c pre IH]; intros Hno.
  - change (EmptyString +:+ String sep rest) with (String sep rest).
    simpl. by rewrite Ascii.eqb_refl.
  - change (String c pre +:+ String sep rest) with (String c (pre +:+ String sep rest)).
    simpl. destruct (Ascii.eqb_spec c sep) as [-> | Hne].
    + destruct Hno. by exists EmptyString, pre.
    + rewrite IH; [done |]. intros Hin. apply Hno. by apply Includes_cons.
Qed.

Lemma Split_no_sep s sep :
  ¬ Includes s (String sep EmptyString) → strings.Split s sep = [s].
Proof.
  induction s as [|c s IH]; intros Hno; [done |].
  simpl. destruct (Ascii.eqb_spec c sep) as [-> | Hne].
  - destruct Hno. by exists EmptyString, s.
  - rewrite IH; [done |]. intros Hin. apply Hno. by apply Includes_cons.
Qed.

(** X12. The response text of a command and a colon-free status splits
    on [':'] into exactly two fields, the base command of the command
    and the status: the base never carries a colon into the response. *)
Theorem X12_response_splits_back command status message :
  ¬ Includes status ":" →
  strings.Split (types.ToResponseString (types.NewPLCResponse command status message)) ":"
  = [extractBaseCommand command; status].
Proof.
  intros Hstatus. unfold types.ToResponseString, types.NewPLCResponse. simpl.
  change (types.extractBaseCommand command) with (extractBaseCommand command).
  destruct (extractBaseCommand_BeforeFirstColon command) as [Hbase _].
  change (extractBaseCommand command +:+ ":" +:+ status)
    with (extractBaseCommand command +:+ String ":" status).
  rewrite Split_append_sep by done. by rewrite Split_no_sep.
Qed.

Lemma uint_of_string_zeros k s :
  NilEmpty.uint_of_string (fmt.zeros k +:+ s)
  = Nat.iter k Hexadecimal.D0 <$> NilEmpty.uint_of_string s.
Proof.
  induction k as [|k IH].
  - change (fmt.zeros 0 +:+ s) with s. by destruct (NilEmpty.uint_of_string s).
  - change (fmt.zeros (S k) +:+ s) with (String "0" (fmt.zeros k +:+ s)).
    simpl. rewrite IH. by destruct (NilEmpty.uint_of_string s).
Qed.

Lemma of_hex_uint_iter_D0 k d :
  N.of_hex_uint (Nat.iter k Hexadecimal.D0 d) = N.of_hex_uint d.
Proof. induction k as [|k IH]; [done |]. simpl. exact IH. Qed.

Lemma uint_of_string_hexDigits n :
  ∃ d, NilEmpty.uint_of_string (fmt.hexDigits n) = Some d ∧ N.of_hex_uint d = n.
Proof.
  unfold fmt.hexDigits. pose proof (HexadecimalN.Unsigned.of_to n) as Hn.
  destruct (N.to_hex_uint n) as [| | | | | | | | | | | | | | | | ] eqn:Hd.
  1: { exists (Hexadecimal.D0 Hexadecimal.Nil). split; [done |]. by rewrite <- Hn. }
  all: eexists; split; [apply NilEmpty.usu | done].
Qed.

Lemma uint_of_string_zeroPad width n :
  ∃ d,
    NilEmpty.uint_of_string (fmt.zeroPad width (fmt.hexDigits n)) = Some d
    ∧ N.of_hex_uint d = n.
Proof.
  destruct (uint_of_string_hexDigits n) as (d & Hd & Hn).
  unfold fmt.zeroPad. rewrite uint_of_string_zeros, Hd. eexists. split; [done |].
  by rewrite of_hex_uint_iter_D0.
Qed.

Lemma parse_016x_digits s d :
  NilEmpty.uint_of_string s = Some d →
  parse_016x s = Some (Z.of_N (N.of_hex_uint d)).
Proof.
  destruct s as [|a s]; [by intros [= <-] |].
  intros Hs. cbn [NilEmpty.uint_of_string] in Hs.
  destruct (NilEmpty.uint_of_string s) as [d' |] eqn:Hd'; [| done].
  assert (parse_016x (String a s)
          = (λ d, Z.of_N (N.of_hex_uint d)) <$> NilEmpty.uint_of_string (String a s))
    as ->.
  { apply uint_of_char_spec in Hs.
    repeat (destruct Hs as [[-> _] | Hs]; [reflexivity |]).
    by destruct Hs as [-> _]. }
  cbn [NilEmpty.uint_of_string]. by rewrite Hd', Hs.
Qed.

(** Reading an id back gives the number it was printed from. *)
Lemma parse_Sprintf_016x v : parse_016x (fmt.Sprintf_016x v) = Some v.
Proof.
  unfold fmt.Sprintf_016x. destruct (Z.ltb_spec v 0) as [Hneg | Hpos].
  - destruct (uint_of_string_zeroPad 15 (Z.to_N (- v))) as (d & Hd & Hn).
    cbn [parse_016x]. rewrite Hd. simpl. rewrite Hn. f_equal. lia.
  - destruct (uint_of_string_zeroPad 16 (Z.to_N v)) as (d & Hd & Hn).
    rewrite (parse_016x_digits _ _ Hd), Hn. f_equal. lia.
Qed.

Lemma Sprintf_016x_inj v1 v2 : fmt.Sprintf_016x v1 = fmt.Sprintf_016x v2 → v1 = v2.
Proof.
  intros Heq. pose proof (parse_Sprintf_016x v1) as H1.
  rewrite Heq, parse_Sprintf_016x in H1. by injection H1.
Qed.

(** X13. Two order ids are equal only when the clock read the same
    nanosecond for both: the formatting of the reading loses nothing. *)
Theorem X13_order_id_determines_reading env1 env2 :
  generateOrderID env1 = generateOrderID env2 → orderNano env1 = orderNano env2.
Proof. apply Sprintf_016x_inj. Qed.

(** X14. When the clock does not run backwards between the three
    readings of one order (and stays two nanoseconds below the largest
    [int64]), the order id, the node id and the action id are pairwise
    different; in particular when it does not advance at all. *)
Theorem X14_ids_of_one_order_differ env :
  - 2 ^ 63 ≤ orderNano env →
  orderNano env ≤ nodeNano env →
  nodeNano env ≤ actionNano env →
  actionNano env ≤ MaxInt64 - 2 →
  generateOrderID env ≠ generateNodeID env
  ∧ generateOrderID env ≠ generateActionID env
  ∧ generateNodeID env ≠ generateActionID env.
Proof.
  intros Hlow Hnode Haction Hhigh.
  unfold generateOrderID, generateNodeID, generateActionID.
  unfold MaxInt64 in Hhigh.
  rewrite !wrap64_small by (unfold MaxInt64; lia).
  repeat split; intros Heq%Sprintf_016x_inj; lia.
Qed.

Section EarlierAggregator.

Context (cfg : Config) (env : Env).

Lemma bool_decide_reports_cons a rest status :
  bool_decide (reports (a :: rest) status)
  = bool_decide (actionStatusOf a = Some status) || bool_decide (reports rest status).
Proof.
  rewrite <- bool_decide_or. apply bool_decide_ext.
  unfold reports. by rewrite Exists_cons.
Qed.

Lemma bool_decide_reports_nil status : bool_decide (reports [] status) = false.
Proof.
  apply bool_decide_eq_false. unfold reports. intros H. by apply Exists_nil in H.
Qed.

Ltac by_IH :=
  simpl;
  match goal with
  | IH : ∀ flags, _ |- context [byFlags.scanFlags _ ?f] =>
      destruct (IH f) as (-> & -> & -> & -> & ->)
  end;
  simpl; rewrite ?orb_true_r, ?orb_false_r; done.

(** After the loop each flag is set exactly when it was set before or
    its status occurs in the report. *)
Lemma scanFlags_flags actionStates flags :
  byFlags.hasWaiting (byFlags.scanFlags actionStates flags)
  = byFlags.hasWaiting flags || bool_decide (reports actionStates "WAITING")
  ∧ byFlags.hasInitializing (byFlags.scanFlags actionStates flags)
    = byFlags.hasInitializing flags || bool_decide (reports actionStates "INITIALIZING")
  ∧ byFlags.hasRunning (byFlags.scanFlags actionStates flags)
    = byFlags.hasRunning flags || bool_decide (reports actionStates "RUNNING")
  ∧ byFlags.hasFinished (byFlags.scanFlags actionStates flags)
    = byFlags.hasFinished flags || bool_decide (reports actionStates "FINISHED")
  ∧ byFlags.hasFailed (byFlags.scanFlags actionStates flags)
    = byFlags.hasFailed flags || bool_decide (reports actionStates "FAILED").
Proof.
  revert flags. induction actionStates as [|a rest IH]; intros flags.
  { rewrite !bool_decide_reports_nil, !orb_false_r. done. }
  rewrite !bool_decide_reports_cons. simpl. unfold actionStatusOf.
  destruct a as [| | | | |fields]; try (simpl; apply IH).
  destruct (fields !! "actionStatus") as [[| | |status| |]|]; try (simpl; apply IH).
  assert (∀ known : string,
            status ≠ known →
            bool_decide (status = known) = false
            ∧ bool_decide (Some status = Some known) = false) as Hother.
  { intros known Hne. split; apply bool_decide_eq_false; congruence. }
  destruct (decide (status = "WAITING")) as [-> | HW]; [by_IH |].
  destruct (decide (status = "INITIALIZING")) as [-> | HI]; [by_IH |].
  destruct (decide (status = "RUNNING")) as [-> | HR]; [by_IH |].
  destruct (decide (status = "FINISHED")) as [-> | HS]; [by_IH |].
  destruct (decide (status = "FAILED")) as [-> | HF]; [by_IH |].
  destruct (Hother _ HW) as [-> ->]. destruct (Hother _ HI) as [-> ->].
  destruct (Hother _ HR) as [-> ->]. destruct (Hother _ HS) as [-> ->].
  destruct (Hother _ HF) as [-> ->].
  by_IH.
Qed.

(** X15. Within the length a slice can have, the aggregator of the
    earlier revision, which keeps one flag per status, and the current
    one, which counts the statuses in a map, do the same on every
    report: the move to counts changed no response and no removal. *)
Theorem X15_flags_and_counts_agree orderID originalCommand actionStates p :
  Z.of_nat (length actionStates) ≤ MaxInt64 →
  byFlags.processActionStates cfg env orderID originalCommand actionStates p
  = processActionStates cfg env orderID originalCommand actionStates p.
Proof.
  intros Hlen. unfold byFlags.processActionStates, processActionStates. cbv zeta.
  destruct (scanFlags_flags actionStates
              {| byFlags.hasWaiting := false;
                 byFlags.hasInitializing := false;
                 byFlags.hasRunning := false;
                 byFlags.hasFinished := false;
                 byFlags.hasFailed := false |}) as (-> & -> & -> & -> & ->).
  cbn [byFlags.hasWaiting byFlags.hasInitializing byFlags.hasRunning
       byFlags.hasFinished byFlags.hasFailed orb].
  destruct (count_reports actionStates "FAILED" Hlen) as [Hfailed Hfailed0].
  destruct (count_reports actionStates "FINISHED" Hlen) as [Hfinished Hfinished0].
  destruct (count_reports actionStates "RUNNING" Hlen) as [Hrunning Hrunning0].
  destruct (count_reports actionStates "INITIALIZING" Hlen) as [Hinit Hinit0].
  destruct (count_reports actionStates "WAITING" Hlen) as [Hwaiting Hwaiting0].
  cbv zeta in *.
  repeat case_bool_decide; simpl; try reflexivity; exfalso; tauto.
Qed.

End EarlierAggregator.

(** ** Further properties: an order from command to response *)

Section Lifecycle.

Context (cfg : Config).

Implicit Types (env : Env) (p : Process).

Lemma extractBaseCommand_first_field commandStr baseCommand fields :
  strings.Split commandStr ":" = baseCommand :: fields →
  extractBaseCommand commandStr = baseCommand.
Proof. intros Hsplit. unfold extractBaseCommand. by rewrite Hsplit. Qed.


Lemma processCanceledOrderStates_first env orderID command pre a post p :
  Forall skipped pre →
  (actionStatusOf a = Some "FAILED"
   → processCanceledOrderStates cfg env orderID command (pre ++ a :: post) p
     = Some (tt, withCanceledOrders (delete orderID)
                   (emit (plcResponse cfg env command types.PLCStatusFailed) p)))
  ∧ (actionStatusOf a = Some "FINISHED"
     → processCanceledOrderStates cfg env orderID command (pre ++ a :: post) p
       = Some (tt, withCanceledOrders (delete orderID)
                     (emit (plcResponse cfg env command types.PLCStatusSuccess) p))).
Proof.
  induction 1 as [|b pre Hb _ IH]; simpl app.
  - split; intros Ha.
    + by apply processCanceledOrderStates_FAILED.
    + by apply processCanceledOrderStates_FINISHED.
  - by rewrite processCanceledOrderStates_skip.
Qed.

(** The target of a cancel and what the cancel does with it. *)
Lemma handleCancelCommand_target env commandStr p :
  EnvOK env →
  activeOrders p !! EmptyString = None →
  (∃ orderID original,
     activeOrders p !! orderID = Some original
     ∧ extractBaseCommand original = extractBaseCommand commandStr) →
  ∃ target original instantActions,
    activeOrders p !! target = Some original
    ∧ extractBaseCommand original = extractBaseCommand commandStr
    ∧ target ≠ EmptyString
    ∧ CancelInstantActions cfg instantActions
    ∧ types.IAHeaderID instantActions = wrap64 (headerIDCounter p + 1)
    ∧ handleCancelCommand cfg env commandStr p
      = Some (tt,
              let doc := {| topic := instantActionsTopic cfg;
                            payload := InstantActionsJSON instantActions;
                            delivered := robotPublish env |} in
              let p1 := emit doc (withHeaderIDCounter (wrap64 (headerIDCounter p + 1)) p) in
              if robotPublish env then
                withCanceledOrders (insert target commandStr)
                  (withActiveOrders (delete target) p1)
              else emit (plcResponse cfg env commandStr types.PLCStatusFailed) p1).
Proof.
  intros Henv Hempty (orderID & original & Hactive & Hbase).
  destruct (findTargetOrderID_match (extractBaseCommand commandStr)
              (rangeOrder env (activeOrders p)) EmptyString)
    as (command & Hin & Hbase').
  { exists (orderID, original). split; [| done].
    rewrite (Henv (activeOrders p)). by apply elem_of_map_to_list. }
  unfold handleCancelCommand. cbv [mbind M_bind getActiveOrders].
  set (target := findTargetOrderID _ _ _) in *. clearbody target.
  rewrite (Henv (activeOrders p)) in Hin. apply elem_of_map_to_list in Hin.
  assert (target ≠ EmptyString) as Hne by (intros ->; congruence).
  rewrite bool_decide_eq_false_2 by done.
  unfold sendCancelOrder, getNextHeaderID, Publish. cbv [mbind M_bind mret M_ret].
  exists target, command.
  exists (types.InstantActionsMessage_AddAction
            (types.NewInstantActionsMessage (timeNow env) (wrap64 (headerIDCounter p + 1))
               (RobotManufacturer cfg) (RobotSerialNumber cfg))
            (types.NewInstantAction "cancelOrder" (generateActionID env)
               types.BlockingTypeHard)).
  repeat (split; [done |]).
  split; [repeat split; eexists; repeat split |].
  split; [reflexivity |].
  destruct (robotPublish env); reflexivity.
Qed.

(** X19. When exactly one entry of ActiveOrders has the base command of
    a cancel, the cancel moves that entry, whatever order the [range]
    over the map takes: the choice of the target is then determined. *)
Theorem X19_single_match_is_the_target env commandStr target original p :
  EnvOK env →
  robotPublish env = true →
  activeOrders p !! EmptyString = None →
  activeOrders p !! target = Some original →
  extractBaseCommand original = extractBaseCommand commandStr →
  (∀ orderID command,
     activeOrders p !! orderID = Some command →
     extractBaseCommand command = extractBaseCommand commandStr →
     orderID = target) →
  ∃ p',
    handleCancelCommand cfg env commandStr p = Some (tt, p')
    ∧ activeOrders p' = delete target (activeOrders p)
    ∧ canceledOrders p' = <[target := commandStr]> (canceledOrders p).
Proof.
  intros Henv Hpub Hempty Hactive Hbase Hunique.
  destruct (handleCancelCommand_target env commandStr p Henv Hempty)
    as (t & c & instantActions & Ht & Hc & _ & _ & _ & ->); [eauto |].
  rewrite (Hunique t c Ht Hc), Hpub. eexists. split; [reflexivity |]. done.
Qed.

(** X18. An accepted cancel and the report that resolves it: when the
    one matching entry is canceled and the robot then reports, for that
    order id, a first FAILED (or FINISHED) action after actions of other
    statuses only, the response [<base>:F] (or [<base>:S]) for the base
    of the cancel command is published and the id is in neither map any
    more. *)
Theorem X18_accepted_cancel_resolves env env' commandStr target original
    (m : gmap string json) pre a post status p :
  EnvOK env →
  robotPublish env = true →
  activeOrders p !! EmptyString = None →
  activeOrders p !! target = Some original →
  extractBaseCommand original = extractBaseCommand commandStr →
  (∀ orderID command,
     activeOrders p !! orderID = Some command →
     extractBaseCommand command = extractBaseCommand commandStr →
     orderID = target) →
  m !! "orderId" = Some (JString target) →
  m !! "actionStates" = Some (JArray (pre ++ a :: post)) →
  Forall skipped pre →
  (actionStatusOf a = Some "FAILED" ∧ status = types.PLCStatusFailed)
  ∨ (actionStatusOf a = Some "FINISHED" ∧ status = types.PLCStatusSuccess) →
  ∃ p1 p2,
    handleCancelCommand cfg env commandStr p = Some (tt, p1)
    ∧ HandleRobotState cfg env' (Some m) p1 = Some (tt, p2)
    ∧ published p2 = published p1 ++ [plcResponse cfg env' commandStr status]
    ∧ activeOrders p2 = delete target (activeOrders p)
    ∧ canceledOrders p2 = delete target (canceledOrders p).
Proof.
  intros Henv Hpub Hempty Hactive Hbase Hunique Hid Hstates Hpre Ha.
  destruct (handleCancelCommand_target env commandStr p Henv Hempty)
    as (t & c & instantActions & Ht & Hc & Hne & _ & _ & Hrun); [eauto |].
  rewrite (Hunique t c Ht Hc), Hpub in Hrun. rewrite (Hunique t c Ht Hc) in Hne.
  assert (∃ p2, HandleRobotState cfg env' (Some m)
                  (withCanceledOrders (insert target commandStr)
                     (withActiveOrders (delete target)
                        (emit {| topic := instantActionsTopic cfg;
                                 payload := InstantActionsJSON instantActions;
                                 delivered := true |}
                           (withHeaderIDCounter (wrap64 (headerIDCounter p + 1)) p))))
                = Some (tt, p2)
               ∧ published p2
                 = (published p
                    ++ [ {| topic := instantActionsTopic cfg;
                            payload := InstantActionsJSON instantActions;
                            delivered := true |} ])
                   ++ [plcResponse cfg env' commandStr status]
               ∧ activeOrders p2 = delete target (activeOrders p)
               ∧ canceledOrders p2 = delete target (canceledOrders p))
    as (p2 & Hstate & Hp2); [| by eauto].
  unfold HandleRobotState. rewrite Hid, Hstates.
  rewrite bool_decide_eq_true_2 by done.
  cbv [mbind M_bind getCanceledOrders].
  cbn [canceledOrders activeOrders withCanceledOrders withActiveOrders emit
       withHeaderIDCounter].
  rewrite lookup_insert_eq.
  destruct (processCanceledOrderStates_first env' target commandStr pre a post
              (withCanceledOrders (insert target commandStr)
                 (withActiveOrders (delete target)
                    (emit {| topic := instantActionsTopic cfg;
                             payload := InstantActionsJSON instantActions;
                             delivered := true |}
                       (withHeaderIDCounter (wrap64 (headerIDCounter p + 1)) p))))
              Hpre) as [Hfailed Hfinished].
  destruct Ha as [[Ha ->] | [Ha ->]].
  - rewrite (Hfailed Ha). eexists. split; [reflexivity |].
    cbn [published activeOrders canceledOrders withCanceledOrders withActiveOrders
         emit withHeaderIDCounter].
    split; [reflexivity |]. split; [reflexivity | apply delete_insert_eq].
  - rewrite (Hfinished Ha). eexists. split; [reflexivity |].
    cbn [published activeOrders canceledOrders withCanceledOrders withActiveOrders
         emit withHeaderIDCounter].
    split; [reflexivity |]. split; [reflexivity | apply delete_insert_eq].
Qed.

End Lifecycle.

(** ** The further properties on concrete inputs *)

Lemma testEnvDown_OK now : EnvOK (testEnvDown now).
Proof. intros m. reflexivity. Qed.

Lemma X3_witness :
  HandleRobotState testConfig (testEnv 7) (stateReport "00000000000000aa" ["FINISHED"])
    (stateAfter testConfig [(testEnv 5, PLCCommand "PICK:I")])
  = Some (tt, stateAfter testConfig [(testEnv 5, PLCCommand "PICK:I")]).
Proof.
  destruct (X3_unusable_report_dropped testConfig (testEnv 7)
              (stateReport "00000000000000aa" ["FINISHED"])
              (stateAfter testConfig [(testEnv 5, PLCCommand "PICK:I")]))
    as (_ & _ & _ & Huntracked & _).
  eapply (Huntracked _ "00000000000000aa"); [reflexivity | | |]; vm_compute; reflexivity.
Defined.

Lemma X4_witness :
  ∃ p',
    HandleRobotState testConfig (testEnv 7)
      (stateReport "0000000000000005" ["RUNNING"; "FINISHED"; "FAILED"])
      (stateAfter testConfig
         [(testEnv 5, PLCCommand "PICK:I"); (testEnv 6, PLCCommand "PICK:C")])
    = Some (tt, p')
    ∧ published p'
      = published (stateAfter testConfig
                     [(testEnv 5, PLCCommand "PICK:I"); (testEnv 6, PLCCommand "PICK:C")])
        ++ [plcResponse testConfig (testEnv 7) "PICK:C" "S"].
Proof.
  destruct (X4_canceled_entry_takes_precedence testConfig (testEnv 7)
              (<["orderId" := JString "0000000000000005"]>
                 (<["actionStates" :=
                      JArray (actionState <$> ["RUNNING"; "FINISHED"; "FAILED"])]> ∅))
              "0000000000000005" "PICK:C"
              (stateAfter testConfig
                 [(testEnv 5, PLCCommand "PICK:I"); (testEnv 6, PLCCommand "PICK:C")]))
    as (p' & Hrun & _).
  - vm_compute. reflexivity.
  - discriminate.
  - vm_compute. reflexivity.
  - exists p'. split; [exact Hrun |].
    revert Hrun. vm_compute. intros [= <-]. reflexivity.
Defined.

Lemma X5_witness :
  handleDirectAction testConfig (testEnv 5) "B:X:T" NewDirectActionHandler
  = Some (tt, emit (plcResponse testConfig (testEnv 5) "B:X:T" "F") NewDirectActionHandler).
Proof.
  apply (X5_unknown_action_type_fails testConfig (testEnv 5) "B:X:T" "B" "X" "" ["T"]);
    [reflexivity | discriminate | discriminate].
Defined.

Lemma X6_witness :
  ∃ order actionType params,
    DirectActionParameters "MOVE" "T" "L" actionType params
    ∧ SingleActionOrder testConfig order actionType params
    ∧ types.HeaderID order = 1
    ∧ types.OrderID order = "0000000000000005"
    ∧ handleDirectAction testConfig (testEnv 5) "MOVE:T:L" NewDirectActionHandler
      = Some (tt, withActiveOrders (insert "0000000000000005" "MOVE:T:L")
                    (emit {| topic := "meili/v2/Roboligent/DEX0002/order";
                             payload := OrderJSON order;
                             delivered := true |}
                       (withHeaderIDCounter 1 NewDirectActionHandler))).
Proof.
  apply (X6_direct_action_accepted testConfig (testEnv 5) "MOVE:T:L" "MOVE" "T" "" ["L"]
           NewDirectActionHandler);
    [reflexivity | right; reflexivity | reflexivity].
Defined.

Lemma X7_witness :
  ∃ order p',
    handleDirectAction testConfig (testEnvDown 5) "PICK:I" NewDirectActionHandler
    = Some (tt, p')
    ∧ published p'
      = [ {| topic := "meili/v2/Roboligent/DEX0002/order";
             payload := OrderJSON order;
             delivered := false |};
          plcResponse testConfig (testEnvDown 5) "PICK:I" "F" ]
    ∧ types.HeaderID order = 1
    ∧ headerIDCounter p' = 1
    ∧ activeOrders p' = ∅
    ∧ canceledOrders p' = ∅.
Proof.
  apply (X7_direct_action_lost testConfig (testEnvDown 5) "PICK:I" "PICK" "I" "" []
           NewDirectActionHandler);
    [reflexivity | left; reflexivity | reflexivity].
Defined.

Lemma X8_witness :
  ∃ target original instantActions p',
    activeOrders (stateAfter testConfig [(testEnv 5, PLCCommand "PICK:I")]) !! target
    = Some original
    ∧ extractBaseCommand original = "PICK"
    ∧ CancelInstantActions testConfig instantActions
    ∧ types.IAHeaderID instantActions = 2
    ∧ handleCancelCommand testConfig (testEnv 6) "PICK:C"
        (stateAfter testConfig [(testEnv 5, PLCCommand "PICK:I")])
      = Some (tt, p')
    ∧ headerIDCounter p' = 2
    ∧ (published p'
       = published (stateAfter testConfig [(testEnv 5, PLCCommand "PICK:I")])
         ++ [ {| topic := "meili/v2/Roboligent/DEX0002/instantActions";
                 payload := InstantActionsJSON instantActions;
                 delivered := true |} ]
       ∧ activeOrders p'
         = delete target
             (activeOrders (stateAfter testConfig [(testEnv 5, PLCCommand "PICK:I")]))
       ∧ canceledOrders p'
         = <[target := "PICK:C"]>
             (canceledOrders (stateAfter testConfig [(testEnv 5, PLCCommand "PICK:I")]))).
Proof.
  apply (X8_cancel_moves_matching_entry testConfig (testEnv 6) "PICK:C"
           (stateAfter testConfig [(testEnv 5, PLCCommand "PICK:I")])).
  - apply testEnv_OK.
  - vm_compute. reflexivity.
  - exists "0000000000000005", "PICK:I". split; vm_compute; reflexivity.
Defined.

Lemma X10_witness :
  "0000000000000005" ≠ EmptyString
  ∧ "0000000000000005"
    ∈ deliveredOrderIDs
        (published (stateAfter testConfig
                      [(testEnv 5, PLCCommand "PICK:I"); (testEnv 6, PLCCommand "PICK:C")]))
  ∧ isCancelCommand "PICK:C" = true.
Proof.
  destruct (X10_tracker_entries testConfig
              (stateAfter testConfig
                 [(testEnv 5, PLCCommand "PICK:I"); (testEnv 6, PLCCommand "PICK:C")]))
    as [_ Hcanceled].
  - apply stateAfter_reachable. repeat constructor; apply testEnv_OK.
  - apply (Hcanceled "0000000000000005" "PICK:C"). vm_compute. reflexivity.
Defined.

Lemma X11_witness :
  Forall (WellFormedPublication testConfig)
    (published (stateAfter testConfig
                  [ (testEnv 5, PLCCommand "PICK:I");
                    (testEnv 6, RobotState (stateReport "0000000000000005" ["RUNNING"]));
                    (testEnv 7, PLCCommand "PICK:C");
                    (testEnv 8, RobotState (stateReport "0000000000000005" ["FAILED"])) ])).
Proof.
  apply (X11_publications_well_formed testConfig).
  apply stateAfter_reachable. repeat constructor; apply testEnv_OK.
Defined.

Lemma X12_witness :
  strings.Split (types.ToResponseString (types.NewPLCResponse "PICK:I" "S" EmptyString)) ":"
  = ["PICK"; "S"].
Proof.
  apply (X12_response_splits_back "PICK:I" "S" EmptyString).
  rewrite <- Contains_Includes. vm_compute. discriminate.
Defined.

Lemma X13_witness : orderNano (testEnv 5) = orderNano (testEnvDown 5).
Proof.
  apply (X13_order_id_determines_reading (testEnv 5) (testEnvDown 5)). reflexivity.
Defined.

Lemma X14_witness :
  generateOrderID (testEnv 5) ≠ generateNodeID (testEnv 5)
  ∧ generateOrderID (testEnv 5) ≠ generateActionID (testEnv 5)
  ∧ generateNodeID (testEnv 5) ≠ generateActionID (testEnv 5).
Proof.
  apply (X14_ids_of_one_order_differ (testEnv 5)); vm_compute; discriminate.
Defined.

Lemma X15_witness :
  byFlags.processActionStates testConfig (testEnv 7) "0000000000000005" "PICK:I"
    [actionState "FINISHED"; actionState "INITIALIZING"; JNull] NewDirectActionHandler
  = processActionStates testConfig (testEnv 7) "0000000000000005" "PICK:I"
      [actionState "FINISHED"; actionState "INITIALIZING"; JNull] NewDirectActionHandler.
Proof.
  apply (X15_flags_and_counts_agree testConfig (testEnv 7)). vm_compute. discriminate.
Defined.

Lemma X16_witness :
  headerIDCounter
    (stateAfter testConfig
       [ (testEnv 5, PLCCommand "PICK:I");
         (testEnvDown 6, PLCCommand "MOVE:T");
         (testEnv 7, PLCCommand "PICK:C") ])
  = 3.
Proof.
  destruct (X16_header_ids_count_documents testConfig
              (stateAfter testConfig
                 [ (testEnv 5, PLCCommand "PICK:I");
                   (testEnvDown 6, PLCCommand "MOVE:T");
                   (testEnv 7, PLCCommand "PICK:C") ])) as [Hcounter _].
  - apply stateAfter_reachable.
    repeat constructor; first [apply testEnv_OK | apply testEnvDown_OK].
  - rewrite Hcounter. vm_compute. reflexivity.
Defined.


Lemma X18_witness :
  ∃ p1 p2,
    handleCancelCommand testConfig (testEnv 6) "PICK:C"
      (stateAfter testConfig [(testEnv 5, PLCCommand "PICK:I")])
    = Some (tt, p1)
    ∧ HandleRobotState testConfig (testEnv 7)
        (stateReport "0000000000000005" ["RUNNING"; "FAILED"; "FINISHED"]) p1
      = Some (tt, p2)
    ∧ published p2 = published p1 ++ [plcResponse testConfig (testEnv 7) "PICK:C" "F"]
    ∧ activeOrders p2
      = delete "0000000000000005"
          (activeOrders (stateAfter testConfig [(testEnv 5, PLCCommand "PICK:I")]))
    ∧ canceledOrders p2
      = delete "0000000000000005"
          (canceledOrders (stateAfter testConfig [(testEnv 5, PLCCommand "PICK:I")])).
Proof.
  apply (X18_accepted_cancel_resolves testConfig (testEnv 6) (testEnv 7) "PICK:C"
           "0000000000000005" "PICK:I"
           (<["orderId" := JString "0000000000000005"]>
              (<["actionStates" :=
                   JArray (actionState <$> ["RUNNING"; "FAILED"; "FINISHED"])]> ∅))
           [actionState "RUNNING"] (actionState "FAILED") [actionState "FINISHED"]
           "F" (stateAfter testConfig [(testEnv 5, PLCCommand "PICK:I")])).
  - apply testEnv_OK.
  - reflexivity.
  - vm_compute. reflexivity.
  - vm_compute. reflexivity.
  - vm_compute. reflexivity.
  - intros orderID command Hin _.
    change (activeOrders (stateAfter testConfig [(testEnv 5, PLCCommand "PICK:I")]))
      with (<["0000000000000005" := "PICK:I"]> (∅ : gmap string string)) in Hin.
    apply lookup_insert_Some in Hin as [[<- _] | [_ Hin]]; [done |].
    by rewrite lookup_empty in Hin.
  - vm_compute. reflexivity.
  - vm_compute. reflexivity.
  - repeat constructor; vm_compute; try reflexivity; intuition discriminate.
  - left. split; vm_compute; reflexivity.
Defined.

Lemma X19_witness :
  ∃ p',
    handleCancelCommand testConfig (testEnv 6) "PICK:C"
      (stateAfter testConfig [(testEnv 5, PLCCommand "PICK:I")])
    = Some (tt, p')
    ∧ activeOrders p'
      = delete "0000000000000005"
          (activeOrders (stateAfter testConfig [(testEnv 5, PLCCommand "PICK:I")]))
    ∧ canceledOrders p'
      = <["0000000000000005" := "PICK:C"]>
          (canceledOrders (stateAfter testConfig [(testEnv 5, PLCCommand "PICK:I")])).
Proof.
  apply (X19_single_match_is_the_target testConfig (testEnv 6) "PICK:C"
           "0000000000000005" "PICK:I"
           (stateAfter testConfig [(testEnv 5, PLCCommand "PICK:I")])).
  - apply testEnv_OK.
  - reflexivity.
  - vm_compute. reflexivity.
  - vm_compute. reflexivity.
  - vm_compute. reflexivity.
  - intros orderID command Hin _.
    change (activeOrders (stateAfter testConfig [(testEnv 5, PLCCommand "PICK:I")]))
      with (<["0000000000000005" := "PICK:I"]> (∅ : gmap string string)) in Hin.
    apply lookup_insert_Some in Hin as [[<- _] | [_ Hin]]; [done |].
    by rewrite lookup_empty in Hin.
Defined.
